(** * Desktop settings exporter / importer: a shallow embedding

    The repository holds two Python scripts.
    - [KDE_Kali_linux_get_current_settings_and_themes.py] (the exporter) asks
      the [gsettings] utility for five values and dumps them, as one JSON
      object, into [settings.json].
    - [KDE_Kali_reinstall_fav_settings_and_themes.py] (the importer) loads
      [settings.json] and hands each of the five values back to [gsettings].

    Both scripts are straight-line code over three outside collaborators:
    the process spawner ([subprocess.run]), the working directory
    ([open]) and the [json] module.  The embedding threads a [World]
    through a state-and-exception monad; the spawned utility is a parameter
    of the development (a function on an abstract store), the [json] module
    and the byte/text primitives are written out. *)

From Stdlib Require Import ZArith List Strings.String Strings.Ascii Strings.Byte.
From stdpp Require Import gmap strings list.

Open Scope Z_scope.

(** ** Python values: [bytes] and [str] *)

(** A Python [bytes] object is a sequence of octets, a Python [str] a
    sequence of Unicode code points. *)
Abbreviation bytes := (list byte).
Abbreviation str := (list Z).

Definition byte_val (b : byte) : Z := Z.of_N (Byte.to_N b).

(** An ASCII literal of the scripts, as a [str]. *)
Definition py (s : string) : str := byte_val <$> list_byte_of_string s.

(** The same literal as [bytes] (what a process would print). *)
Definition pyb (s : string) : bytes := list_byte_of_string s.

Definition str_eqb (a b : str) : bool := bool_decide (a = b).

Module Bytes.

(** [Py_ISSPACE]: space and the five ASCII controls 0x09..0x0d. *)
Definition isspace (b : byte) : bool :=
  let c := byte_val b in (c =? 32) || ((9 <=? c) && (c <=? 13)).

Fixpoint lstrip (b : bytes) : bytes :=
  match b with
  | c :: b' => if isspace c then lstrip b' else b
  | [] => []
  end.

Definition rstrip (b : bytes) : bytes := rev (lstrip (rev b)).

(** [bytes.strip()] with no argument. *)
Definition strip (b : bytes) : bytes := rstrip (lstrip b).

(** A continuation octet [10xxxxxx]. *)
Definition is_cont (b : byte) : bool :=
  let c := byte_val b in (128 <=? c) && (c <=? 191).

Definition low6 (b : byte) : Z := Z.land (byte_val b) 63.

(** [bytes.decode("utf-8")] with the default [errors="strict"]: [None]
    stands for [UnicodeDecodeError].  Overlong forms, encoded surrogates
    and values above U+10FFFF are rejected. *)
Fixpoint decode_utf8 (b : bytes) : option str :=
  match b with
  | [] => Some []
  | b0 :: t0 =>
    let c0 := byte_val b0 in
    if c0 <? 128 then cons c0 <$> decode_utf8 t0
    else if (192 <=? c0) && (c0 <? 224) then
      match t0 with
      | b1 :: t1 =>
        let cp := Z.lor (Z.shiftl (Z.land c0 31) 6) (low6 b1) in
        if is_cont b1 && (128 <=? cp) then cons cp <$> decode_utf8 t1
        else None
      | _ => None
      end
    else if (224 <=? c0) && (c0 <? 240) then
      match t0 with
      | b1 :: b2 :: t2 =>
        let cp := Z.lor (Z.shiftl (Z.land c0 15) 12)
                        (Z.lor (Z.shiftl (low6 b1) 6) (low6 b2)) in
        if is_cont b1 && is_cont b2 && (2048 <=? cp)
           && negb ((55296 <=? cp) && (cp <=? 57343))
        then cons cp <$> decode_utf8 t2
        else None
      | _ => None
      end
    else if (240 <=? c0) && (c0 <? 248) then
      match t0 with
      | b1 :: b2 :: b3 :: t3 =>
        let cp := Z.lor (Z.shiftl (Z.land c0 7) 18)
                        (Z.lor (Z.shiftl (low6 b1) 12)
                               (Z.lor (Z.shiftl (low6 b2) 6) (low6 b3))) in
        if is_cont b1 && is_cont b2 && is_cont b3
           && (65536 <=? cp) && (cp <=? 1114111)
        then cons cp <$> decode_utf8 t3
        else None
      | _ => None
      end
    else None
  end.

End Bytes.

(** The exceptions the two scripts can die of.  [ValueError] and
    [RecursionError] are what [json.load] raises at the limits of the
    interpreter; [OSError] stands for [PermissionError] ([errno] 13),
    [IsADirectoryError] ([errno] 21) and the like. *)
Inductive exn : Type :=
| FileNotFoundError
| UnicodeDecodeError
| JSONDecodeError
| ValueError
| RecursionError
| KeyError (k : str)
| TypeError
| OSError (errno : Z).

(** ** The [json] module

    [json.dump] as the exporter calls it (default arguments, so
    [ensure_ascii=True] and the separators [", "] and [": "]), and
    [json.load] as the importer calls it (default arguments, so the strict
    string scanner).  The decoder follows [json/decoder.py] and
    [json/scanner.py]. *)

Module Json.

(** What [json.load] can return.  Numbers are kept as the lexeme that was
    matched (the scripts never compute with them); the constants [NaN],
    [Infinity] and [-Infinity], which Python reads as floats, are numbers
    too.  An object keeps its members in document order; [getitem] gives
    them the meaning of the [dict] Python builds from them. *)
#[warnings="-register-all"] Inductive value : Type :=
| JNull
| JBool (b : bool)
| JNumber (lexeme : str)
| JString (s : str)
| JArray (items : list value)
| JObject (pairs : list (str * value)).

(** [dict(pairs)[k]]: the last member named [k] wins. *)
Fixpoint getitem (pairs : list (str * value)) (k : str) : option value :=
  match pairs with
  | [] => None
  | (k', v) :: rest =>
    match getitem rest k with
    | Some v' => Some v'
    | None => if str_eqb k' k then Some v else None
    end
  end.

(** *** Encoder *)

(** One lower-case hexadecimal digit, as ['{:x}'.format] prints it. *)
Definition hex_digit (n : Z) : Z := if n <? 10 then 48 + n else 87 + n.

(** ['\\u{0:04x}'.format(n)]. *)
Definition u_escape (n : Z) : str :=
  [92; 117;
   hex_digit (Z.land (Z.shiftr n 12) 15); hex_digit (Z.land (Z.shiftr n 8) 15);
   hex_digit (Z.land (Z.shiftr n 4) 15); hex_digit (Z.land n 15)].

(** The [replace] callback of [py_encode_basestring_ascii]: the text put
    in place of one character.  Printable ASCII other than the quote and
    the backslash is kept; everything else is escaped, characters beyond
    the basic plane as a surrogate pair. *)
Definition escape_char (c : Z) : str :=
  if c =? 92 then [92; 92]
  else if c =? 34 then [92; 34]
  else if (32 <=? c) && (c <=? 126) then [c]
  else if c =? 8 then [92; 98]
  else if c =? 12 then [92; 102]
  else if c =? 10 then [92; 110]
  else if c =? 13 then [92; 114]
  else if c =? 9 then [92; 116]
  else if c <? 65536 then u_escape c
  else
    let n := c - 65536 in
    u_escape (Z.lor 55296 (Z.land (Z.shiftr n 10) 1023))
    ++ u_escape (Z.lor 56320 (Z.land n 1023)).

Definition encode_basestring_ascii (s : str) : str :=
  [34] ++ flat_map escape_char s ++ [34].

Definition dumps_item (kv : str * str) : str :=
  encode_basestring_ascii kv.1 ++ [58; 32] ++ encode_basestring_ascii kv.2.

Fixpoint dumps_items (d : list (str * str)) : str :=
  match d with
  | [] => []
  | [kv] => dumps_item kv
  | kv :: d' => dumps_item kv ++ [44; 32] ++ dumps_items d'
  end.

(** [json.dumps] of a [dict] from [str] to [str], the only kind of object
    the exporter serialises: members in insertion order. *)
Definition dumps (d : list (str * str)) : str :=
  match d with
  | [] => [123; 125]
  | _ => [123] ++ dumps_items d ++ [125]
  end.

(** *** Decoder *)

(** [WHITESPACE]: space, tab, line feed and carriage return. *)
Definition is_ws (c : Z) : bool :=
  (c =? 32) || (c =? 9) || (c =? 10) || (c =? 13).

Fixpoint skip_ws (s : str) : str :=
  match s with
  | c :: s' => if is_ws c then skip_ws s' else s
  | [] => []
  end.

Definition hex_val (c : Z) : option Z :=
  if (48 <=? c) && (c <=? 57) then Some (c - 48)
  else if (97 <=? c) && (c <=? 102) then Some (c - 87)
  else if (65 <=? c) && (c <=? 70) then Some (c - 55)
  else None.

(** [_decode_uXXXX]: four hexadecimal digits. *)
Definition decode_uXXXX (a b c d : Z) : option Z :=
  match hex_val a, hex_val b, hex_val c, hex_val d with
  | Some a, Some b, Some c, Some d => Some (((a * 16 + b) * 16 + c) * 16 + d)
  | _, _, _, _ => None
  end.

(** The [BACKSLASH] table. *)
Definition backslash (esc : Z) : option Z :=
  if esc =? 34 then Some 34
  else if esc =? 92 then Some 92
  else if esc =? 47 then Some 47
  else if esc =? 98 then Some 8
  else if esc =? 102 then Some 12
  else if esc =? 110 then Some 10
  else if esc =? 114 then Some 13
  else if esc =? 116 then Some 9
  else None.

Definition is_high_surrogate (u : Z) : bool := (55296 <=? u) && (u <=? 56319).
Definition is_low_surrogate (u : Z) : bool := (56320 <=? u) && (u <=? 57343).

Definition join_surrogates (u u2 : Z) : Z :=
  65536 + Z.lor (Z.shiftl (u - 55296) 10) (u2 - 56320).

Definition push (c : Z) (r : option (str * str)) : option (str * str) :=
  match r with
  | Some (x, rest) => Some (c :: x, rest)
  | None => None
  end.

(** [scanstring(s, end, strict=True)], entered just after the opening
    quote: the decoded string and the text after the closing quote.
    [None] stands for [JSONDecodeError]. *)
Fixpoint scanstring (s : str) : option (str * str) :=
  match s with
  | [] => None
  | c :: s1 =>
    if c =? 34 then Some ([], s1)
    else if c =? 92 then
      match s1 with
      | [] => None
      | esc :: s2 =>
        if esc =? 117 then
          match s2 with
          | a :: b :: c' :: d :: s3 =>
            match decode_uXXXX a b c' d with
            | None => None
            | Some uni =>
              if is_high_surrogate uni then
                match s3 with
                | b1 :: u1 :: s4 =>
                  if (b1 =? 92) && (u1 =? 117) then
                    match s4 with
                    | a2 :: b2 :: c2 :: d2 :: s5 =>
                      match decode_uXXXX a2 b2 c2 d2 with
                      | None => None
                      | Some uni2 =>
                        if is_low_surrogate uni2
                        then push (join_surrogates uni uni2) (scanstring s5)
                        else push uni (scanstring s3)
                      end
                    | _ => None
                    end
                  else push uni (scanstring s3)
                | _ => push uni (scanstring s3)
                end
              else push uni (scanstring s3)
            end
          | _ => None
          end
        else
          match backslash esc with
          | Some ch => push ch (scanstring s2)
          | None => None
          end
      end
    else if (0 <=? c) && (c <? 32) then None
    else push c (scanstring s1)
  end.

Definition is_digit (c : Z) : bool := (48 <=? c) && (c <=? 57).

Fixpoint span_digits (s : str) : str * str :=
  match s with
  | c :: s' =>
    if is_digit c then let '(ds, r) := span_digits s' in (c :: ds, r)
    else ([], s)
  | [] => ([], [])
  end.

(** The integer part of [NUMBER_RE]: an optional minus sign, then either a
    single zero or a non-zero digit followed by digits. *)
Definition match_integer (s : str) : option (str * str) :=
  let '(sign, s1) :=
    match s with
    | c :: t => if c =? 45 then ([45], t) else ([], s)
    | [] => ([], s)
    end in
  match s1 with
  | c :: t =>
    if c =? 48 then Some (sign ++ [48], t)
    else if is_digit c then
      let '(ds, r) := span_digits t in Some (sign ++ c :: ds, r)
    else None
  | [] => None
  end.

(** The optional fraction of [NUMBER_RE]: a dot and at least one digit. *)
Definition match_frac (s : str) : str * str :=
  match s with
  | c :: t =>
    if c =? 46 then
      match span_digits t with
      | ([], _) => ([], s)
      | (ds, r) => (46 :: ds, r)
      end
    else ([], s)
  | [] => ([], s)
  end.

(** The optional exponent of [NUMBER_RE]: [e] or [E], an optional sign and
    at least one digit. *)
Definition match_exp (s : str) : str * str :=
  match s with
  | c :: t =>
    if (c =? 101) || (c =? 69) then
      let '(sg, t1) :=
        match t with
        | d :: t' => if (d =? 43) || (d =? 45) then ([d], t') else ([], t)
        | [] => ([], t)
        end in
      match span_digits t1 with
      | ([], _) => ([], s)
      | (ds, r) => (c :: sg ++ ds, r)
      end
    else ([], s)
  | [] => ([], s)
  end.

(** [NUMBER_RE.match]: the lexeme and the text after it. *)
Definition match_number (s : str) : option (str * str) :=
  match match_integer s with
  | None => None
  | Some (i, s1) =>
    let '(f, s2) := match_frac s1 in
    let '(e, s3) := match_exp s2 in
    Some (i ++ f ++ e, s3)
  end.

(** [s[idx:idx + len(w)] == w], returning the text after [w]. *)
Fixpoint strip_prefix (w s : str) : option str :=
  match w, s with
  | [], _ => Some s
  | a :: w', b :: s' => if a =? b then strip_prefix w' s' else None
  | _ :: _, [] => None
  end.

(** The limits of the interpreter that [json.load] can hit.
    - [max_str_digits] is [sys.get_int_max_str_digits()]: an integer
      literal with more digits is refused with [ValueError]; zero stands
      for no limit.
    - [spare_depth] is how many containers may sit inside one another,
      below the outermost, before [RecursionError]: the scanner enters a
      recursive call for every object and every array. *)
Record limits : Type :=
  { max_str_digits : nat;
    spare_depth : nat }.

(** A lexeme of [NUMBER_RE] without fraction and exponent goes to [int]. *)
Definition is_integer_lexeme (lexeme : str) : bool :=
  forallb (λ c, is_digit c || (c =? 45)) lexeme.

Definition count_digits (lexeme : str) : nat :=
  length (List.filter is_digit lexeme).

(** [int(lexeme)] raises: the literal has more digits than the limit. *)
Definition int_too_long (lim : limits) (lexeme : str) : bool :=
  is_integer_lexeme lexeme
  && (0 <? max_str_digits lim)%nat
  && (max_str_digits lim <? count_digits lexeme)%nat.

(** The non-recursive alternatives of [_scan_once], tried in the order the
    scanner tries them.  A text that starts none of them is
    [JSONDecodeError] (the [StopIteration] of the scanner, which [raw_decode]
    turns into it); an integer literal that [int] refuses is
    [ValueError]. *)
Definition scan_atom (lim : limits) (s : str) : exn + value * str :=
  match strip_prefix (py "null") s with
  | Some r => inr (JNull, r)
  | None =>
  match strip_prefix (py "true") s with
  | Some r => inr (JBool true, r)
  | None =>
  match strip_prefix (py "false") s with
  | Some r => inr (JBool false, r)
  | None =>
  match match_number s with
  | Some (lexeme, r) =>
    if int_too_long lim lexeme then inl ValueError
    else inr (JNumber lexeme, r)
  | None =>
  match strip_prefix (py "NaN") s with
  | Some r => inr (JNumber (py "NaN"), r)
  | None =>
  match strip_prefix (py "Infinity") s with
  | Some r => inr (JNumber (py "Infinity"), r)
  | None =>
  match strip_prefix (py "-Infinity") s with
  | Some r => inr (JNumber (py "-Infinity"), r)
  | None => inl JSONDecodeError
  end end end end end end end.

(** [_scan_once], [JSONObject] and [JSONArray].  The three call each other
    on ever shorter text; [fuel] bounds the number of calls.
    - [scan_once] reads one value; [depth] is the number of containers
      that may still be entered, and an object or array met at depth zero
      is [RecursionError].
    - [object_members] is the [while True] loop of [JSONObject], entered
      just after the opening quote of a member name.
    - [array_items] is the loop of [JSONArray], entered at a value.
    The first error met, reading from left to right, is the one
    raised. *)
Fixpoint scan_once (lim : limits) (depth fuel : nat) (s : str) {struct fuel}
  : exn + value * str :=
  match fuel with
  | O => inl JSONDecodeError
  | S fuel =>
    match s with
    | [] => inl JSONDecodeError
    | c :: s1 =>
      if c =? 34 then
        match scanstring s1 with
        | Some (x, r) => inr (JString x, r)
        | None => inl JSONDecodeError
        end
      else if c =? 123 then
        match depth with
        | O => inl RecursionError
        | S depth =>
          match skip_ws s1 with
          | c1 :: s2 =>
            if c1 =? 125 then inr (JObject [], s2)
            else if c1 =? 34 then
              match object_members lim depth fuel s2 with
              | inr (pairs, r) => inr (JObject pairs, r)
              | inl e => inl e
              end
            else inl JSONDecodeError
          | [] => inl JSONDecodeError
          end
        end
      else if c =? 91 then
        match depth with
        | O => inl RecursionError
        | S depth =>
          match skip_ws s1 with
          | c1 :: s2 =>
            if c1 =? 93 then inr (JArray [], s2)
            else
              match array_items lim depth fuel (c1 :: s2) with
              | inr (items, r) => inr (JArray items, r)
              | inl e => inl e
              end
          | [] => inl JSONDecodeError
          end
        end
      else scan_atom lim s
    end
  end
with object_members (lim : limits) (depth fuel : nat) (s : str) {struct fuel}
     : exn + list (str * value) * str :=
  match fuel with
  | O => inl JSONDecodeError
  | S fuel =>
    match scanstring s with
    | None => inl JSONDecodeError
    | Some (key, s1) =>
      match skip_ws s1 with
      | c :: s2 =>
        if c =? 58 then
          match scan_once lim depth fuel (skip_ws s2) with
          | inl e => inl e
          | inr (v, s3) =>
            match skip_ws s3 with
            | c1 :: s4 =>
              if c1 =? 125 then inr ([(key, v)], s4)
              else if c1 =? 44 then
                match skip_ws s4 with
                | c2 :: s5 =>
                  if c2 =? 34 then
                    match object_members lim depth fuel s5 with
                    | inr (pairs, r) => inr ((key, v) :: pairs, r)
                    | inl e => inl e
                    end
                  else inl JSONDecodeError
                | [] => inl JSONDecodeError
                end
              else inl JSONDecodeError
            | [] => inl JSONDecodeError
            end
          end
        else inl JSONDecodeError
      | [] => inl JSONDecodeError
      end
    end
  end
with array_items (lim : limits) (depth fuel : nat) (s : str) {struct fuel}
     : exn + list value * str :=
  match fuel with
  | O => inl JSONDecodeError
  | S fuel =>
    match scan_once lim depth fuel s with
    | inl e => inl e
    | inr (v, s1) =>
      match skip_ws s1 with
      | c :: s2 =>
        if c =? 93 then inr ([v], s2)
        else if c =? 44 then
          match array_items lim depth fuel (skip_ws s2) with
          | inr (items, r) => inr (v :: items, r)
          | inl e => inl e
          end
        else inl JSONDecodeError
      | [] => inl JSONDecodeError
      end
    end
  end.

(** [json.loads(s)] under the limits [lim]: a leading byte-order mark is
    refused, white space is skipped on both sides of the one value,
    anything else after it is ["Extra data"].  The result is the value, or
    the exception raised: [JSONDecodeError] for a text that is no JSON
    document, [ValueError] and [RecursionError] at the limits.  Of two
    nested calls of the scanner at least one consumes a character, so twice
    the length of the text, and two, bounds their depth: the scanner
    never wants fuel (see [scan_once_fuel]). *)
Definition loads (lim : limits) (s : str) : exn + value :=
  match s with
  | 65279 :: _ => inl JSONDecodeError
  | _ =>
    match scan_once lim (S (spare_depth lim)) (S (S (2 * length s))) (skip_ws s) with
    | inr (v, r) =>
      match skip_ws r with
      | [] => inr v
      | _ :: _ => inl JSONDecodeError
      end
    | inl e => inl e
    end
  end.

End Json.

(** ** The outside world *)

(** [subprocess.CompletedProcess]: what [subprocess.run] hands back once the
    child has exited, whatever its exit status. *)
Record CompletedProcess : Type :=
  { returncode : Z;
    stdout : bytes }.

(** A Python [dict] from [str] to [str] in insertion order, as the exporter
    fills it. *)
Fixpoint setitem (d : list (str * str)) (k v : str) : list (str * str) :=
  match d with
  | [] => [(k, v)]
  | (k', v') :: d' =>
    if str_eqb k' k then (k, v) :: d' else (k', v') :: setitem d' k v
  end.

(** A string literal of the scripts, as a Python object. *)
Definition lit (s : string) : Json.value := Json.JString (py s).

(** The conversion [subprocess.run] applies to every element of [args]
    before it forks: only [str] passes ([TypeError] otherwise). *)
Fixpoint fsencode_args (args : list Json.value) : option (list str) :=
  match args with
  | [] => Some []
  | Json.JString a :: args' => cons a <$> fsencode_args args'
  | _ :: _ => None
  end.

(** The schema argument of the terminal colour invocations, character for
    character as the two scripts spell it (in a Python double-quoted literal
    a backslash-quote is a quote). *)
Definition color_scheme_schema : string :=
  "org.gnome.Terminal.Legacy.Profile:/org/gnome/terminal/legacy/profiles:/:$(gsettings get org.gnome.Terminal.ProfilesList default|awk -F' ' '{print $2}'|awk -F'' '{print $1}')/".

Section Scripts.

(** The live configuration store is whatever the spawned utility reads
    and writes; [spawn argv st] runs the program [argv] to completion on
    the store [st].  It either raises in the parent (the program is not
    installed, an argument cannot be passed, ...) or returns the exit
    status and the captured output, with the store the child left. *)
Context {Store : Type}.
Variable spawn : list str → Store → (exn + CompletedProcess) * Store.

(** One entry of the call log: the argument vector and how it ended. *)
Definition Call : Type := list str * (exn + CompletedProcess).

(** The world a script runs in.
    - [files] gives the text each file of the working directory reads
      as.
    - [unwritable] gives, for a path that cannot be opened for writing (a
      directory, a file or a directory without the permission), the
      exception [open] raises.
    - [interpreter] holds the limits of the Python that runs the script.
    - [store] is the live configuration store.
    - [calls] logs every [subprocess.run] that reached the spawner, in
      order. *)
Record World : Type :=
  { files : gmap string str;
    unwritable : gmap string exn;
    interpreter : Json.limits;
    store : Store;
    calls : list Call }.

(** The world after the calls [new] moved the store to [st]. *)
Definition after (w : World) (st : Store) (new : list Call) : World :=
  {| files := files w; unwritable := unwritable w;
     interpreter := interpreter w;
     store := st; calls := calls w ++ new |}.

(** The world with [text] in the file [path]: the file reads back as it
    was written. *)
Definition written (w : World) (path : string) (text : str) : World :=
  {| files := <[path := text]> (files w); unwritable := unwritable w;
     interpreter := interpreter w;
     store := store w; calls := calls w |}.

(** State and exceptions. *)
Definition M (A : Type) : Type := World → (exn + A) * World.

Definition ret {A} (a : A) : M A := λ w, (inr a, w).

Definition raise {A} (e : exn) : M A := λ w, (inl e, w).

Definition bind {A B} (m : M A) (k : A → M B) : M B := λ w,
  match m w with
  | (inr a, w') => k a w'
  | (inl e, w') => (inl e, w')
  end.

Notation "x <- m ;; k" := (bind m (λ x, k))
  (at level 100, m at next level, right associativity).
Notation "m ;; k" := (bind m (λ _, k))
  (at level 100, right associativity).

(** [subprocess.run(args)] and [subprocess.run(args, capture_output=True)]
    (no [shell=True], no [check=True]): the argument vector goes to the
    program as it is, and a non-zero exit status is not an error. *)
Definition subprocess_run (args : list Json.value) : M CompletedProcess :=
  λ w,
  match fsencode_args args with
  | None => (inl TypeError, w)
  | Some argv =>
    let '(r, st) := spawn argv (store w) in
    (r, after w st [(argv, r)])
  end.

(** [b.decode("utf-8")]. *)
Definition decode (b : bytes) : M str :=
  match Bytes.decode_utf8 b with
  | Some s => ret s
  | None => raise UnicodeDecodeError
  end.

(** [with open(path, "r") as f: json.load(f)]: without the file [open]
    raises; whatever [json.loads] raises on the text goes through. *)
Definition json_load (path : string) : M Json.value := λ w,
  match files w !! path with
  | None => (inl FileNotFoundError, w)
  | Some text =>
    match Json.loads (interpreter w) text with
    | inr v => (inr v, w)
    | inl e => (inl e, w)
    end
  end.

(** [with open(path, "w") as f: json.dump(d, f)]: [open] raises where the
    path cannot be opened for writing (a directory, a read-only file or
    directory, ...), and nothing is written; otherwise the file is created
    or truncated, then holds the serialised [d].  A [dict] of strings is
    always serialisable; a device that fails in the middle of the write
    is outside the model. *)
Definition json_dump (d : list (str * str)) (path : string) : M unit :=
  λ w,
  match unwritable w !! path with
  | Some e => (inl e, w)
  | None => (inr (), written w path (Json.dumps d))
  end.

(** [settings[k]] on what [json.load] returned. *)
Definition subscript (settings : Json.value) (k : string) : M Json.value :=
  match settings with
  | Json.JObject pairs =>
    match Json.getitem pairs (py k) with
    | Some v => ret v
    | None => raise (KeyError (py k))
    end
  | _ => raise TypeError
  end.

(** *** [KDE_Kali_linux_get_current_settings_and_themes.py] *)
Definition exporter : M unit :=
  let settings : list (str * str) := [] in
  p <- subprocess_run [lit "gsettings"; lit "get";
                       lit "org.gnome.desktop.interface"; lit "gtk-theme"] ;;
  gtk_theme <- decode (Bytes.strip (stdout p)) ;;
  let settings := setitem settings (py "gtk_theme") gtk_theme in
  p <- subprocess_run [lit "gsettings"; lit "get";
                       lit "org.gnome.desktop.interface"; lit "icon-theme"] ;;
  icon_theme <- decode (Bytes.strip (stdout p)) ;;
  let settings := setitem settings (py "icon_theme") icon_theme in
  p <- subprocess_run [lit "gsettings"; lit "get";
                       lit "org.gnome.desktop.interface"; lit "cursor-theme"] ;;
  cursor_theme <- decode (Bytes.strip (stdout p)) ;;
  let settings := setitem settings (py "cursor_theme") cursor_theme in
  p <- subprocess_run [lit "gsettings"; lit "get";
                       lit "org.gnome.desktop.background"; lit "picture-uri"] ;;
  wallpaper <- decode (Bytes.strip (stdout p)) ;;
  let settings := setitem settings (py "wallpaper") wallpaper in
  p <- subprocess_run [lit "gsettings"; lit "get";
                       lit color_scheme_schema; lit "foreground-color"] ;;
  color_scheme <- decode (Bytes.strip (stdout p)) ;;
  let settings := setitem settings (py "color_scheme") color_scheme in
  json_dump settings "settings.json".

(** *** [KDE_Kali_reinstall_fav_settings_and_themes.py] *)
Definition importer : M unit :=
  settings <- json_load "settings.json" ;;
  v <- subscript settings "gtk_theme" ;;
  subprocess_run [lit "gsettings"; lit "set";
                  lit "org.gnome.desktop.interface"; lit "gtk-theme"; v] ;;
  v <- subscript settings "icon_theme" ;;
  subprocess_run [lit "gsettings"; lit "set";
                  lit "org.gnome.desktop.interface"; lit "icon-theme"; v] ;;
  v <- subscript settings "cursor_theme" ;;
  subprocess_run [lit "gsettings"; lit "set";
                  lit "org.gnome.desktop.interface"; lit "cursor-theme"; v] ;;
  v <- subscript settings "wallpaper" ;;
  subprocess_run [lit "gsettings"; lit "set";
                  lit "org.gnome.desktop.background"; lit "picture-uri"; v] ;;
  v <- subscript settings "color_scheme" ;;
  subprocess_run [lit "gsettings"; lit "set";
                  lit color_scheme_schema; lit "foreground-color"; v] ;;
  ret ().

End Scripts.

(** ** The two scripts as loops over one table

    Both scripts handle the same five settings in the same order.  The
    table lists, for each, the key of the record, the schema and the key
    handed to the utility; the two loops below are the scripts with their
    five stanzas folded (see [exporter_is_loop] and [importer_is_loop]). *)

Record Setting : Type :=
  { record_key : string;
    schema : string;
    key : string }.

(** The terminal colour, the last of the five. *)
Definition color_scheme_setting : Setting :=
  {| record_key := "color_scheme";
     schema := color_scheme_schema; key := "foreground-color" |}.

Definition settings_table : list Setting :=
  [ {| record_key := "gtk_theme";
       schema := "org.gnome.desktop.interface"; key := "gtk-theme" |};
    {| record_key := "icon_theme";
       schema := "org.gnome.desktop.interface"; key := "icon-theme" |};
    {| record_key := "cursor_theme";
       schema := "org.gnome.desktop.interface"; key := "cursor-theme" |};
    {| record_key := "wallpaper";
       schema := "org.gnome.desktop.background"; key := "picture-uri" |};
    color_scheme_setting ].

(** The five keys of the record, in order. *)
Definition record_keys : list str := (λ q, py (record_key q)) <$> settings_table.

(** The argument vector of a read query and of a write of [v]. *)
Definition get_argv (q : Setting) : list str :=
  [py "gsettings"; py "get"; py (schema q); py (key q)].

Definition set_argv (q : Setting) (v : str) : list str :=
  [py "gsettings"; py "set"; py (schema q); py (key q); v].

(** A call of the utility that reads: its verb is [get]. *)
Definition is_get (argv : list str) : bool :=
  match argv with
  | prog :: verb :: _ => str_eqb prog (py "gsettings") && str_eqb verb (py "get")
  | _ => false
  end.

(** [settings[k]] without the monad. *)
Definition lookup_key (settings : Json.value) (k : string) : exn + Json.value :=
  match settings with
  | Json.JObject pairs =>
    match Json.getitem pairs (py k) with
    | Some v => inr v
    | None => inl (KeyError (py k))
    end
  | _ => inl TypeError
  end.

(** A Unicode scalar value: a code point that is no surrogate. *)
Definition scalar (c : Z) : Prop :=
  0 ≤ c < 55296 ∨ 57344 ≤ c ≤ 1114111.

Section Loops.

Context {Store : Type}.
Variable spawn : list str → Store → (exn + CompletedProcess) * Store.

Fixpoint export_loop (qs : list Setting) (settings : list (str * str))
  : M (Store := Store) unit :=
  match qs with
  | [] => json_dump settings "settings.json"
  | q :: qs' =>
    bind (subprocess_run spawn (Json.JString <$> get_argv q)) (λ p,
    bind (decode (Bytes.strip (stdout p))) (λ v,
    export_loop qs' (setitem settings (py (record_key q)) v)))
  end.

Fixpoint import_loop (settings : Json.value) (qs : list Setting)
  : M (Store := Store) unit :=
  match qs with
  | [] => ret ()
  | q :: qs' =>
    bind (subscript settings (record_key q)) (λ v,
    bind (subprocess_run spawn
            ((Json.JString <$> [py "gsettings"; py "set"; py (schema q); py (key q)])
             ++ [v])) (λ _,
    import_loop settings qs'))
  end.

(** Running a list of argument vectors one after the other, as long as
    none raises: the completed processes and the store that is left. *)
Fixpoint spawn_all (argvs : list (list str)) (st : Store)
  : option (list CompletedProcess * Store) :=
  match argvs with
  | [] => Some ([], st)
  | argv :: rest =>
    match spawn argv st with
    | (inr c, st') =>
      match spawn_all rest st' with
      | Some (cs, st'') => Some (c :: cs, st'')
      | None => None
      end
    | (inl _, _) => None
    end
  end.

(** The log entries of a list of completed calls. *)
Definition completed (argvs : list (list str)) (cs : list CompletedProcess)
  : list (Call) :=
  zip_with (λ argv c, (argv, inr c)) argvs cs.

(** The value captured from one completed read query. *)
Definition captured (c : CompletedProcess) : option str :=
  Bytes.decode_utf8 (Bytes.strip (stdout c)).

(** Writing back what a read query prints changes nothing: in the store
    [st], the read query of [q] completes and leaves [st] as it is, its
    output decodes, and the write of the captured text completes and
    leaves [st] as it is. *)
Definition reads_back (st : Store) (q : Setting) : Prop :=
  ∃ c v c',
    spawn (get_argv q) st = (inr c, st)
    ∧ captured c = Some v
    ∧ spawn (set_argv q v) st = (inr c', st).

End Loops.

(** ** Vocabulary of the statements *)

(** The value the record [settings] holds for each setting of [qs]. *)
Definition holds (settings : Json.value) (qs : list Setting) (vs : list str)
  : Prop :=
  Forall2 (λ q v, lookup_key settings (record_key q) = inr (Json.JString v))
          qs vs.

(** The record the exporter has built after the settings [qs] gave the
    values [vs], starting from [d]. *)
Definition fill (d : list (str * str)) (qs : list Setting) (vs : list str)
  : list (str * str) :=
  foldl (λ d qv, setitem d (py (record_key qv.1)) qv.2) d (zip qs vs).

(** A member of a record whose strings hold scalar values only, and the
    member [json.loads] makes of it. *)
Definition scalar_pair (kv : str * str) : Prop :=
  Forall scalar kv.1 ∧ Forall scalar kv.2.

Definition jstring_pair (kv : str * str) : str * Json.value :=
  (kv.1, Json.JString kv.2).

(** ** Stand-ins for the utility *)

(** Printable text as octets (code points that are no octet are dropped). *)
Definition ascii_bytes (s : str) : bytes :=
  omap (λ c, Byte.of_N (Z.to_N c)) s.

Definition exit_status (n : Z) (out : bytes) : exn + CompletedProcess :=
  inr {| returncode := n; stdout := out |}.

(** The store of the stand-in utility: the text of the value of each
    (schema, key), in the order the keys were created. *)
Abbreviation FakeStore := (list ((str * str) * str)).

Fixpoint fake_lookup (st : FakeStore) (k : str * str) : option str :=
  match st with
  | [] => None
  | (k', v) :: st' => if bool_decide (k' = k) then Some v else fake_lookup st' k
  end.

Fixpoint fake_update (st : FakeStore) (k : str * str) (v : str) : FakeStore :=
  match st with
  | [] => []
  | (k', v') :: st' =>
    if bool_decide (k' = k) then (k', v) :: st'
    else (k', v') :: fake_update st' k v
  end.

(** A configuration utility over such a store: [get] prints the value and
    a line feed, [set] replaces it; an unknown schema or key, or a
    malformed command line, is exit status 1 with nothing printed and
    nothing changed. *)
Definition fake_gsettings (argv : list str) (st : FakeStore)
  : (exn + CompletedProcess) * FakeStore :=
  match argv with
  | [prog; verb; sch; k] =>
    if negb (str_eqb prog (py "gsettings")) then (inl FileNotFoundError, st)
    else if str_eqb verb (py "get") then
      match fake_lookup st (sch, k) with
      | Some v => (exit_status 0 (ascii_bytes v ++ [x0a]), st)
      | None => (exit_status 1 [], st)
      end
    else (exit_status 1 [], st)
  | [prog; verb; sch; k; v] =>
    if negb (str_eqb prog (py "gsettings")) then (inl FileNotFoundError, st)
    else if str_eqb verb (py "set") then
      match fake_lookup st (sch, k) with
      | Some _ => (exit_status 0 [], fake_update st (sch, k) v)
      | None => (exit_status 1 [], st)
      end
    else (exit_status 1 [], st)
  | prog :: _ =>
    if negb (str_eqb prog (py "gsettings")) then (inl FileNotFoundError, st)
    else (exit_status 1 [], st)
  | [] => (inl (OSError 2), st)
  end.

(** A machine on which the utility is not installed. *)
Definition no_gsettings (argv : list str) (st : unit)
  : (exn + CompletedProcess) * unit :=
  (inl FileNotFoundError, st).

(** The limits of an interpreter left at its defaults: 4300 digits, and a
    depth of the order of the recursion limit. *)
Definition usual_limits : Json.limits :=
  {| Json.max_str_digits := 4300; Json.spare_depth := 990 |}.

(** A desktop with all five settings. *)
Definition desktop : FakeStore :=
    [ ((py "org.gnome.desktop.interface", py "gtk-theme"), py "'Kali-Dark'");
      ((py "org.gnome.desktop.interface", py "icon-theme"), py "'Flat-Remix-Blue-Dark'");
      ((py "org.gnome.desktop.interface", py "cursor-theme"), py "'Adwaita'");
      ((py "org.gnome.desktop.background", py "picture-uri"), py "'file:///usr/share/backgrounds/kali/kali.png'");
      ((py color_scheme_schema, py "foreground-color"), py "'#D3D7CF'") ].

Definition world0 : World (Store := FakeStore) :=
  {| unwritable := ∅; interpreter := usual_limits;
     files := ∅; store := desktop; calls := [] |}.

(** Completed processes of the stand-in: a silent success, a silent
    failure, and a [get] that printed [v]. *)
Definition ok : CompletedProcess := {| returncode := 0; stdout := [] |}.
Definition failed : CompletedProcess := {| returncode := 1; stdout := [] |}.
Definition printed (v : str) : CompletedProcess :=
  {| returncode := 0; stdout := ascii_bytes v ++ [x0a] |}.

(** The document of the scenario in the specification. *)
Definition saved_record : list (str * str) :=
  [ (py "gtk_theme", py "Adwaita");
    (py "icon_theme", py "Papirus");
    (py "cursor_theme", py "Adwaita");
    (py "wallpaper", py "file:///wall.png");
    (py "color_scheme", py "#FFFFFF") ].

(** The desktop with that document in the working directory. *)
Definition scenario_world : World (Store := FakeStore) :=
  {| unwritable := ∅; interpreter := usual_limits;
     files := {[ "settings.json" := Json.dumps saved_record ]};
     store := desktop; calls := [] |}.

(** The desktop with a document that has one key only. *)
Definition partial_world : World (Store := FakeStore) :=
  {| unwritable := ∅; interpreter := usual_limits;
     files := {[ "settings.json" := Json.dumps [(py "gtk_theme", py "'Adwaita'")] ]};
     store := desktop; calls := [] |}.

(** The desktop with something in [settings.json] that is no JSON. *)
Definition stale_world : World (Store := FakeStore) :=
  {| unwritable := ∅; interpreter := usual_limits;
     files := {[ "settings.json" := py "gtk_theme=Adwaita" ]};
     store := desktop; calls := [] |}.

(** A desktop whose interface schema has no cursor theme: reading or
    writing it is exit status 1. *)
Definition bare_desktop : FakeStore :=
  filter (λ kv, kv.1 ≠ (py "org.gnome.desktop.interface", py "cursor-theme"))
         desktop.

Definition bare_world : World (Store := FakeStore) :=
  {| unwritable := ∅; interpreter := usual_limits;
     files := {[ "settings.json" := Json.dumps saved_record ]};
     store := bare_desktop; calls := [] |}.

(** A machine without the utility, and an empty working directory. *)
Definition no_tool_world : World (Store := unit) :=
  {| unwritable := ∅; interpreter := usual_limits;
     files := ∅; store := (); calls := [] |}.

(** A desktop with a terminal: the profile list names a default profile,
    and the colour of that profile sits under the path of that profile. *)
Definition default_profile_schema : string :=
  "org.gnome.Terminal.Legacy.Profile:/org/gnome/terminal/legacy/profiles:/:b1dcc9dd-5262-4d8d-a863-c897e6d979b9/".

Definition terminal_desktop : FakeStore :=
  filter (λ kv, kv.1 ≠ (py color_scheme_schema, py "foreground-color")) desktop
  ++ [ ((py "org.gnome.Terminal.ProfilesList", py "default"),
        py "'b1dcc9dd-5262-4d8d-a863-c897e6d979b9'");
       ((py default_profile_schema, py "foreground-color"), py "'#00FF00'") ].

Definition terminal_world : World (Store := FakeStore) :=
  {| unwritable := ∅; interpreter := usual_limits;
     files := {[ "settings.json" := Json.dumps saved_record ]};
     store := terminal_desktop; calls := [] |}.

(** ** Further vocabulary *)

(** ASCII white space as a code point: what [Bytes.isspace] accepts. *)
Definition is_space_char (c : Z) : bool :=
  (c =? 32) || ((9 <=? c) && (c <=? 13)).

(** A string that neither starts nor ends with ASCII white space. *)
Definition trimmed (v : str) : Prop :=
  (∀ c, head v = Some c → is_space_char c = false)
  ∧ (∀ c, last v = Some c → is_space_char c = false).

(** Printable ASCII. *)
Definition printable (c : Z) : Prop := 32 ≤ c ≤ 126.

(** ASCII white space octet by octet: space, tab, line feed, carriage
    return, vertical tab and form feed, which is what [bytes.strip]
    removes when it is called without an argument. *)
Definition whitespace : list byte := [x20; x09; x0a; x0d; x0b; x0c].

(** [body] is [raw] without the white space around it: [raw] is white
    space, then [body], then white space, and [body] neither starts nor
    ends with white space. *)
Definition stripped (raw body : bytes) : Prop :=
  ∃ pre post,
    raw = pre ++ body ++ post
    ∧ Forall (λ b, b ∈ whitespace) pre
    ∧ Forall (λ b, b ∈ whitespace) post
    ∧ (∀ b, head body = Some b → b ∉ whitespace)
    ∧ (∀ b, last body = Some b → b ∉ whitespace).

(** The text a completed read query contributes to the record: its
    output without the white space around it, read as UTF-8 (octets below
    128 stand for themselves). *)
Definition recorded (c : CompletedProcess) (v : str) : Prop :=
  ∃ body,
    stripped (stdout c) body
    ∧ Bytes.decode_utf8 body = Some v
    ∧ (Forall (λ b, byte_val b < 128) body → v = byte_val <$> body).

(** How a read query makes the exporter die, if it does: the spawn raised,
    or what it printed does not decode. *)
Definition failure (r : exn + CompletedProcess) : option exn :=
  match r with
  | inl e => Some e
  | inr c =>
    match Bytes.decode_utf8 (Bytes.strip (stdout c)) with
    | Some _ => None
    | None => Some UnicodeDecodeError
    end
  end.

(** What a run of the exporter does to the files: nothing, or
    [settings.json] becomes [text]. *)
Definition write_file (upd : option str) (m : gmap string str)
  : gmap string str :=
  match upd with
  | Some text => <["settings.json" := text]> m
  | None => m
  end.

(** Whether a value read from the document is a string. *)
Definition is_string (v : Json.value) : bool :=
  match v with
  | Json.JString _ => true
  | _ => false
  end.

(** A member name or a string between its quotes, for documents written
    by hand. *)
Definition quoted (s : string) : str := [34] ++ py s ++ [34].

(** A utility whose wallpaper query prints an octet that is no UTF-8. *)
Definition garbled_gsettings (argv : list str) (st : FakeStore)
  : (exn + CompletedProcess) * FakeStore :=
  if bool_decide (argv = [py "gsettings"; py "get";
                          py "org.gnome.desktop.background"; py "picture-uri"])
  then (exit_status 0 [xff; x0a], st)
  else fake_gsettings argv st.

(** The desktop with a document whose icon theme is a number. *)
Definition number_world : World (Store := FakeStore) :=
  {| unwritable := ∅; interpreter := usual_limits;
     files := {[ "settings.json" :=
                   py "{" ++ quoted "gtk_theme" ++ py ": " ++ quoted "Adwaita"
                   ++ py ", " ++ quoted "icon_theme" ++ py ": 5}" ]};
     store := desktop; calls := [] |}.

(** The desktop with the scenario's document, its members in another
    order and with two members more, one of them a second [wallpaper]
    ahead of the one that counts. *)
Definition crowded_world : World (Store := FakeStore) :=
  {| unwritable := ∅; interpreter := usual_limits;
     files := {[ "settings.json" :=
                   Json.dumps
                     [ (py "font", py "Mono");
                       (py "wallpaper", py "file:///old.png");
                       (py "color_scheme", py "#FFFFFF");
                       (py "cursor_theme", py "Adwaita");
                       (py "wallpaper", py "file:///wall.png");
                       (py "icon_theme", py "Papirus");
                       (py "gtk_theme", py "Adwaita") ] ]};
     store := desktop; calls := [] |}.

(** A desktop where a query printed nothing but white space. *)
Definition blank_desktop : FakeStore :=
  fake_update desktop (py "org.gnome.desktop.interface", py "icon-theme") (py "  ").

Definition blank_world : World (Store := FakeStore) :=
  {| unwritable := ∅; interpreter := usual_limits;
     files := ∅; store := blank_desktop; calls := [] |}.

(** ** Further stand-ins *)

(** A utility whose read of the cursor theme fails, with exit status 1
    and nothing printed, and which is [fake_gsettings] otherwise: its
    writes work. *)
Definition flaky_gsettings (argv : list str) (st : FakeStore)
  : (exn + CompletedProcess) * FakeStore :=
  if bool_decide (argv = [py "gsettings"; py "get";
                          py "org.gnome.desktop.interface"; py "cursor-theme"])
  then (exit_status 1 [], st)
  else fake_gsettings argv st.

(** The desktop, in a working directory where [settings.json] cannot be
    opened for writing ([PermissionError], which is [OSError] with
    [errno] 13). *)
Definition readonly_world : World (Store := FakeStore) :=
  {| unwritable := {[ "settings.json" := OSError 13 ]};
     interpreter := usual_limits;
     files := ∅; store := desktop; calls := [] |}.

(** A member of a document written by hand, its value given as JSON
    text. *)
Definition member (k : string) (json : str) : str :=
  quoted k ++ py ": " ++ json.

(** A document with the five keys, the icon theme and the wallpaper
    given as JSON text. *)
Definition five_keys (icon_theme wallpaper : str) : str :=
  py "{" ++ member "gtk_theme" (quoted "Adwaita")
  ++ py ", " ++ member "icon_theme" icon_theme
  ++ py ", " ++ member "cursor_theme" (quoted "Adwaita")
  ++ py ", " ++ member "wallpaper" wallpaper
  ++ py ", " ++ member "color_scheme" (quoted "#FFFFFF")
  ++ py "}".

(** The desktop with a document that has the five keys, the icon theme
    being the number 5. *)
Definition icon_number_world : World (Store := FakeStore) :=
  {| unwritable := ∅; interpreter := usual_limits;
     files := {[ "settings.json" :=
                   five_keys (py "5") (quoted "file:///wall.png") ]};
     store := desktop; calls := [] |}.

(** The desktop without a cursor theme, with a document that has the five
    keys, the wallpaper being the number 7. *)
Definition wallpaper_number_world : World (Store := FakeStore) :=
  {| unwritable := ∅; interpreter := usual_limits;
     files := {[ "settings.json" := five_keys (quoted "Papirus") (py "7") ]};
     store := bare_desktop; calls := [] |}.

(** A machine without the utility, with the document of the scenario. *)
Definition no_tool_saved_world : World (Store := unit) :=
  {| unwritable := ∅; interpreter := usual_limits;
     files := {[ "settings.json" := Json.dumps saved_record ]};
     store := (); calls := [] |}.

(** The desktop with a document whose first value is a number and which
    has no other key. *)
Definition lone_number_world : World (Store := FakeStore) :=
  {| unwritable := ∅; interpreter := usual_limits;
     files := {[ "settings.json" := py "{" ++ member "gtk_theme" (py "1") ++ py "}" ]};
     store := desktop; calls := [] |}.

(** The desktop with a document that [json.load] refuses at a limit: a
    sixth member that is an integer of 4301 digits, or arrays nested 1000
    deep. *)
Definition long_integer_world : World (Store := FakeStore) :=
  {| unwritable := ∅; interpreter := usual_limits;
     files := {[ "settings.json" :=
                   removelast (Json.dumps saved_record)
                   ++ py ", " ++ member "font_size" (replicate 4301 49)
                   ++ py "}" ]};
     store := desktop; calls := [] |}.

Definition deep_world : World (Store := FakeStore) :=
  {| unwritable := ∅; interpreter := usual_limits;
     files := {[ "settings.json" :=
                   removelast (Json.dumps saved_record)
                   ++ py ", " ++ member "history"
                                   (replicate 1000 91 ++ replicate 1000 93)
                   ++ py "}" ]};
     store := desktop; calls := [] |}.

(** What the exporter makes of the desktop: the record, its text, and
    the world it leaves of [stale_world]. *)
Definition exported_record : list (str * str) :=
  [ (py "gtk_theme", py "'Kali-Dark'");
    (py "icon_theme", py "'Flat-Remix-Blue-Dark'");
    (py "cursor_theme", py "'Adwaita'");
    (py "wallpaper", py "'file:///usr/share/backgrounds/kali/kali.png'");
    (py "color_scheme", py "'#D3D7CF'") ].

Definition exported_text : str :=
  py "{" ++ member "gtk_theme" (quoted "'Kali-Dark'")
  ++ py ", " ++ member "icon_theme" (quoted "'Flat-Remix-Blue-Dark'")
  ++ py ", " ++ member "cursor_theme" (quoted "'Adwaita'")
  ++ py ", " ++ member "wallpaper"
                  (quoted "'file:///usr/share/backgrounds/kali/kali.png'")
  ++ py ", " ++ member "color_scheme" (quoted "'#D3D7CF'")
  ++ py "}".


(** * Properties *)

(** ** Arithmetic of the escapes *)

Lemma land_shiftl_low (a k x : Z) :
  0 ≤ k → 0 ≤ x < 2 ^ k → Z.land (Z.shiftl a k) x = 0.
Proof.
  intros Hk Hx. apply Z.bits_inj'. intros i Hi.
  rewrite Z.land_spec, Z.bits_0.
  destruct (Z.lt_ge_cases i k) as [Hlt | Hge].
  - rewrite Z.shiftl_spec_low by lia. reflexivity.
  - destruct (Z.eq_dec x 0) as [-> | Hne].
    + rewrite Z.bits_0. apply andb_false_r.
    + rewrite (Z.bits_above_log2 x i); [apply andb_false_r | lia |].
      assert (Z.log2 x < k) by (apply Z.log2_lt_pow2; lia). lia.
Qed.

Lemma lor_shiftl_add (a k x : Z) :
  0 ≤ k → 0 ≤ x < 2 ^ k → Z.lor (Z.shiftl a k) x = a * 2 ^ k + x.
Proof.
  intros Hk Hx.
  rewrite <- Z.lxor_lor, <- Z.add_nocarry_lxor
    by (apply land_shiftl_low; assumption).
  rewrite Z.shiftl_mul_pow2 by assumption. reflexivity.
Qed.

Lemma land_ones_mod (a k : Z) : 0 ≤ k → Z.land a (Z.ones k) = a mod 2 ^ k.
Proof. intros. apply Z.land_ones. assumption. Qed.

(** Bit operations of the encoders and decoders, as arithmetic. *)
Ltac bits_to_arith :=
  repeat first
    [ rewrite Z.shiftr_div_pow2 by lia
    | rewrite lor_shiftl_add by (try lia; Z.div_mod_to_equations; lia)
    | progress change 15 with (Z.ones 4)
    | progress change 1023 with (Z.ones 10)
    | progress change 63 with (Z.ones 6)
    | progress change 31 with (Z.ones 5)
    | progress change 7 with (Z.ones 3)
    | rewrite land_ones_mod by lia ];
  change (2 ^ 3) with 8 in *; change (2 ^ 4) with 16 in *;
  change (2 ^ 5) with 32 in *; change (2 ^ 6) with 64 in *;
  change (2 ^ 8) with 256 in *; change (2 ^ 10) with 1024 in *;
  change (2 ^ 12) with 4096 in *; change (2 ^ 18) with 262144 in *.

Module JsonFacts.
Import Json.

Lemma hex_val_digit (d : Z) : 0 ≤ d < 16 → hex_val (hex_digit d) = Some d.
Proof.
  intros Hd. unfold hex_val, hex_digit.
  destruct (Z.ltb_spec d 10).
  - replace ((48 <=? 48 + d) && (48 + d <=? 57)) with true
      by (symmetry; apply andb_true_iff; split; apply Z.leb_le; lia).
    f_equal. lia.
  - replace ((48 <=? 87 + d) && (87 + d <=? 57)) with false
      by (symmetry; apply andb_false_iff; right; apply Z.leb_gt; lia).
    replace ((97 <=? 87 + d) && (87 + d <=? 102)) with true
      by (symmetry; apply andb_true_iff; split; apply Z.leb_le; lia).
    f_equal. lia.
Qed.

(** Four printed digits read back as the number. *)
Lemma decode_u_escape (n : Z) (t : str) :
  0 ≤ n < 65536 →
  ∃ a b c d,
    u_escape n ++ t = 92 :: 117 :: a :: b :: c :: d :: t
    ∧ decode_uXXXX a b c d = Some n.
Proof.
  intros Hn. unfold u_escape. do 4 eexists. split; [reflexivity|].
  unfold decode_uXXXX.
  rewrite !hex_val_digit by (bits_to_arith; Z.div_mod_to_equations; lia).
  f_equal. bits_to_arith. Z.div_mod_to_equations. lia.
Qed.

(** The surrogate pair printed for a character beyond the basic plane
    joins back into it. *)
Lemma surrogate_pair (c : Z) :
  65536 ≤ c ≤ 1114111 →
  let n := c - 65536 in
  let hi := Z.lor 55296 (Z.land (Z.shiftr n 10) 1023) in
  let lo := Z.lor 56320 (Z.land n 1023) in
  is_high_surrogate hi = true ∧ is_low_surrogate lo = true
  ∧ join_surrogates hi lo = c ∧ 0 ≤ hi < 65536 ∧ 0 ≤ lo < 65536.
Proof.
  intros Hc n hi lo.
  assert (Hhi : hi = 55296 + n / 1024).
  { subst hi. change (Z.lor 55296) with (Z.lor (Z.shiftl 54 10)). bits_to_arith.
    subst n. Z.div_mod_to_equations. lia. }
  assert (Hlo : lo = 56320 + n mod 1024).
  { subst lo. change (Z.lor 56320) with (Z.lor (Z.shiftl 55 10)). bits_to_arith.
    subst n. Z.div_mod_to_equations. lia. }
  assert (0 ≤ n / 1024 < 1024) by (subst n; Z.div_mod_to_equations; lia).
  assert (0 ≤ n mod 1024 < 1024) by (subst n; Z.div_mod_to_equations; lia).
  unfold is_high_surrogate, is_low_surrogate, join_surrogates.
  rewrite Hhi, Hlo.
  split; [|split; [|split; [|lia]]].
  - apply andb_true_iff; split; apply Z.leb_le; lia.
  - apply andb_true_iff; split; apply Z.leb_le; lia.
  - replace (55296 + n / 1024 - 55296) with (n / 1024) by lia.
    replace (56320 + n mod 1024 - 56320) with (n mod 1024) by lia.
    rewrite lor_shiftl_add by lia. change (2 ^ 10) with 1024.
    subst n. Z.div_mod_to_equations. lia.
Qed.

(** *** The string scanner on each shape of escape *)

Lemma scanstring_raw (c : Z) (t : str) :
  c ≠ 34 → c ≠ 92 → 32 ≤ c →
  scanstring (c :: t) = push c (scanstring t).
Proof.
  intros H1 H2 H3. cbn [scanstring].
  rewrite (proj2 (Z.eqb_neq c 34) H1), (proj2 (Z.eqb_neq c 92) H2).
  rewrite (proj2 (Z.ltb_ge c 32) H3), andb_false_r. reflexivity.
Qed.

Lemma scanstring_short (e ch : Z) (t : str) :
  e ≠ 117 → backslash e = Some ch →
  scanstring (92 :: e :: t) = push ch (scanstring t).
Proof.
  intros H1 H2. cbn [scanstring].
  change (92 =? 34) with false. change (92 =? 92) with true. cbv iota.
  rewrite (proj2 (Z.eqb_neq e 117) H1), H2. reflexivity.
Qed.

Lemma scanstring_u (a b c d uni : Z) (t : str) :
  decode_uXXXX a b c d = Some uni → is_high_surrogate uni = false →
  scanstring (92 :: 117 :: a :: b :: c :: d :: t) = push uni (scanstring t).
Proof.
  intros H1 H2. cbn [scanstring].
  change (92 =? 34) with false. change (92 =? 92) with true.
  change (117 =? 117) with true. cbv iota.
  rewrite H1, H2. reflexivity.
Qed.

Lemma scanstring_pair (a b c d a2 b2 c2 d2 hi lo : Z) (t : str) :
  decode_uXXXX a b c d = Some hi → is_high_surrogate hi = true →
  decode_uXXXX a2 b2 c2 d2 = Some lo → is_low_surrogate lo = true →
  scanstring (92 :: 117 :: a :: b :: c :: d
              :: 92 :: 117 :: a2 :: b2 :: c2 :: d2 :: t)
  = push (join_surrogates hi lo) (scanstring t).
Proof.
  intros H1 H2 H3 H4. cbn [scanstring].
  change (92 =? 34) with false. change (92 =? 92) with true.
  change (117 =? 117) with true. cbv iota.
  rewrite H1, H2. cbn [andb]. rewrite H3, H4. reflexivity.
Qed.

Lemma scalar_not_high (c : Z) : scalar c → is_high_surrogate c = false.
Proof.
  intros [H | H]; unfold is_high_surrogate; apply andb_false_iff;
    [left; apply Z.leb_gt | right; apply Z.leb_gt]; lia.
Qed.

(** What the encoder prints for one character, the scanner reads back as
    that character. *)
Lemma scanstring_escape (c : Z) (t : str) :
  scalar c →
  scanstring (escape_char c ++ t) = push c (scanstring t).
Proof.
  intros Hc. unfold escape_char.
  destruct (Z.eqb_spec c 92) as [-> | N92]; [reflexivity|].
  destruct (Z.eqb_spec c 34) as [-> | N34]; [reflexivity|].
  destruct ((32 <=? c) && (c <=? 126)) eqn:Hp.
  { apply andb_true_iff in Hp as [Hp _]. apply Z.leb_le in Hp.
    apply scanstring_raw; assumption. }
  destruct (Z.eqb_spec c 8) as [-> | N8]; [reflexivity|].
  destruct (Z.eqb_spec c 12) as [-> | N12]; [reflexivity|].
  destruct (Z.eqb_spec c 10) as [-> | N10]; [reflexivity|].
  destruct (Z.eqb_spec c 13) as [-> | N13]; [reflexivity|].
  destruct (Z.eqb_spec c 9) as [-> | N9]; [reflexivity|].
  destruct (Z.ltb_spec c 65536) as [Hlt | Hge].
  - destruct (decode_u_escape c t) as (a & b & c' & d & -> & Hd);
      [destruct Hc; lia|].
    apply scanstring_u; [assumption | apply scalar_not_high; assumption].
  - assert (Hr : 65536 ≤ c ≤ 1114111) by (destruct Hc; lia).
    destruct (surrogate_pair c Hr) as (Hhi & Hlo & Hj & Bhi & Blo).
    cbv zeta in *.
    set (hi := Z.lor 55296 _) in *. set (lo := Z.lor 56320 _) in *.
    rewrite <- app_assoc.
    destruct (decode_u_escape lo t Blo) as (a2 & b2 & c2 & d2 & -> & Hd2).
    destruct (decode_u_escape hi (92 :: 117 :: a2 :: b2 :: c2 :: d2 :: t) Bhi)
      as (a & b & c' & d & -> & Hd1).
    rewrite <- Hj.
    apply scanstring_pair; assumption.
Qed.

Lemma scanstring_encoded (s rest : str) :
  Forall scalar s →
  scanstring (flat_map escape_char s ++ 34 :: rest) = Some (s, rest).
Proof.
  induction 1 as [| c s Hc _ IH]; [reflexivity|].
  cbn [flat_map]. rewrite <- app_assoc, scanstring_escape by assumption.
  rewrite IH. reflexivity.
Qed.

(** *** The object the exporter writes *)

Lemma dumps_items_cons (k v : str) (d : list (str * str)) :
  dumps_items ((k, v) :: d)
  = 34 :: flat_map escape_char k
    ++ 34 :: 58 :: 32 :: 34 :: flat_map escape_char v
    ++ 34 :: match d with
             | [] => []
             | _ :: _ => 44 :: 32 :: dumps_items d
             end.
Proof.
  destruct d; cbn [dumps_items]; unfold dumps_item, encode_basestring_ascii;
    cbn [fst snd]; repeat (rewrite <- ?app_assoc; cbn [app]); reflexivity.
Qed.

Lemma length_dumps_items (d : list (str * str)) :
  (length d ≤ length (dumps_items d))%nat.
Proof.
  induction d as [| [k v] d IH]; [cbn; lia|].
  rewrite dumps_items_cons. cbn [length]. rewrite !length_app. cbn [length].
  rewrite !length_app. cbn [length]. destruct d; cbn [length] in *; lia.
Qed.

Lemma scan_once_string (lim : limits) (depth fuel : nat) (s : str) :
  scan_once lim depth (S fuel) (34 :: s)
  = match scanstring s with
    | Some (x, r) => inr (JString x, r)
    | None => inl JSONDecodeError
    end.
Proof. reflexivity. Qed.

(** The member loop reads the printed members back, in order. *)
Lemma object_members_dumps (d : list (str * str)) :
  d ≠ [] → Forall scalar_pair d →
  ∀ (lim : limits) (depth fuel : nat) (rest : str), (length d < fuel)%nat →
  ∃ body,
    dumps_items d = 34 :: body
    ∧ object_members lim depth fuel (body ++ 125 :: rest)
      = inr (jstring_pair <$> d, rest).
Proof.
  induction d as [| [k v] d IH]; [congruence|].
  intros _ Hd lim depth fuel rest Hfuel.
  apply Forall_cons in Hd as [[Hk Hv] Hd]. cbn [fst snd] in Hk, Hv.
  rewrite dumps_items_cons. eexists. split; [reflexivity|].
  destruct fuel as [| fuel]; [cbn in Hfuel; lia|].
  cbn [object_members].
  destruct fuel as [| fuel]; [cbn in Hfuel; lia|].
  repeat (rewrite <- ?app_assoc; cbn [app]).
  rewrite scanstring_encoded by assumption.
  cbn [skip_ws]. change (is_ws 58) with false. cbv iota.
  change (58 =? 58) with true. cbv iota.
  cbn [skip_ws]. change (is_ws 32) with true. cbv iota.
  cbn [skip_ws]. change (is_ws 34) with false. cbv iota.
  rewrite scan_once_string, scanstring_encoded by assumption.
  destruct d as [| kv d'].
  - reflexivity.
  - destruct (IH ltac:(congruence) Hd lim depth (S fuel) rest)
      as (body & Hbody & Hloop).
    { cbn [length] in *. lia. }
    rewrite Hbody.
    cbn [app skip_ws]. change (is_ws 44) with false. cbv iota.
    change (44 =? 125) with false. change (44 =? 44) with true. cbv iota.
    cbn [skip_ws]. change (is_ws 32) with true. cbv iota.
    cbn [skip_ws]. change (is_ws 34) with false. cbv iota.
    change (34 =? 34) with true. cbv iota.
    rewrite Hloop. reflexivity.
Qed.

(** [json.loads(json.dumps(d))] is [d], for a [dict] of strings free of
    surrogates, whatever the limits: one object, no number. *)
Lemma loads_dumps (lim : limits) (d : list (str * str)) :
  Forall scalar_pair d →
  loads lim (dumps d) = inr (JObject (jstring_pair <$> d)).
Proof.
  intros Hd. destruct d as [| kv d]; [reflexivity|].
  destruct (object_members_dumps (kv :: d) ltac:(congruence) Hd
              lim (spare_depth lim) (S (2 * length (dumps (kv :: d)))) [])
    as (body & Hbody & Hloop).
  { unfold dumps. cbn [app length]. rewrite length_app. cbn [length].
    pose proof (length_dumps_items (kv :: d)). cbn [length] in *. lia. }
  unfold loads, dumps in *. rewrite Hbody in *.
  cbn [app] in *. cbn [skip_ws]. change (is_ws 123) with false. cbv iota.
  cbn [scan_once]. change (123 =? 34) with false. change (123 =? 123) with true.
  cbv iota. cbn [skip_ws]. change (is_ws 34) with false. cbv iota.
  change (34 =? 125) with false. change (34 =? 34) with true. cbv iota.
  rewrite Hloop. reflexivity.
Qed.

(** *** The decoder never runs out of fuel *)

Lemma skip_ws_length (s : str) : (length (skip_ws s) ≤ length s)%nat.
Proof.
  induction s as [| c s IH]; [reflexivity|].
  cbn [skip_ws]. destruct (is_ws c); cbn [length] in *; lia.
Qed.

Lemma push_Some (c : Z) (r : option (str * str)) (x rest : str) :
  push c r = Some (x, rest) → ∃ x', r = Some (x', rest) ∧ x = c :: x'.
Proof.
  destruct r as [[x' rest'] |]; [|discriminate].
  cbn. intros H. injection H as <- <-. eauto.
Qed.

Lemma scanstring_length_aux (n : nat) :
  ∀ (s x r : str),
    (length s ≤ n)%nat → scanstring s = Some (x, r) → (length r < length s)%nat.
Proof.
  induction n as [n IH] using lt_wf_ind.
  intros s x r Hlen Hs. destruct s as [| c s1]; [discriminate|].
  cbn [scanstring] in Hs.
  repeat (case_match; try discriminate); subst;
    try (injection Hs as <- <-; cbn [length]; lia);
    apply push_Some in Hs as (x' & Hs & ->);
    (eapply (IH (pred n)) in Hs; [| cbn [length] in *; lia | cbn [length] in *; lia]);
    cbn [length] in *; lia.
Qed.

Lemma scanstring_length (s x r : str) :
  scanstring s = Some (x, r) → (length r < length s)%nat.
Proof. apply (scanstring_length_aux (length s)). lia. Qed.

Lemma span_digits_length (s ds r : str) :
  span_digits s = (ds, r) → (length r ≤ length s)%nat.
Proof.
  revert ds r. induction s as [| c s IH]; intros ds r H; cbn [span_digits] in H.
  - injection H as <- <-. reflexivity.
  - destruct (is_digit c).
    + destruct (span_digits s) as [ds' r'] eqn:Hs. injection H as <- <-.
      specialize (IH _ _ eq_refl). cbn [length]. lia.
    + injection H as <- <-. reflexivity.
Qed.

Lemma match_integer_length (s i r : str) :
  match_integer s = Some (i, r) → (length r < length s)%nat.
Proof.
  unfold match_integer. intros H.
  assert (Hbody : ∀ sign s1,
             match s1 with
             | c :: t =>
               if c =? 48 then Some (sign ++ [48], t)
               else if is_digit c then
                 let '(ds, r) := span_digits t in Some (sign ++ c :: ds, r)
               else None
             | [] => None
             end = Some (i, r) → (length r < length s1)%nat).
  { intros sign [| c t] Hb; [discriminate|].
    destruct (c =? 48); [injection Hb as <- <-; cbn [length]; lia|].
    destruct (is_digit c); [|discriminate].
    destruct (span_digits t) as [ds r'] eqn:Hd. injection Hb as <- <-.
    apply span_digits_length in Hd. cbn [length]. lia. }
  destruct s as [| c t]; [discriminate|].
  destruct (c =? 45).
  - apply Hbody in H. cbn [length]. lia.
  - apply (Hbody [] (c :: t)) in H. exact H.
Qed.

Lemma match_frac_length (s f r : str) :
  match_frac s = (f, r) → (length r ≤ length s)%nat.
Proof.
  unfold match_frac. intros H.
  repeat (case_match; try discriminate); subst;
    repeat match goal with
           | H : (_, _) = (_, _) |- _ => injection H as <- <-
           | H : span_digits _ = _ |- _ => apply span_digits_length in H
           end;
    cbn [length] in *; lia.
Qed.

Lemma match_exp_length (s e r : str) :
  match_exp s = (e, r) → (length r ≤ length s)%nat.
Proof.
  unfold match_exp. intros H.
  repeat (case_match; try discriminate); subst;
    repeat match goal with
           | H : (_, _) = (_, _) |- _ => injection H as <- <-
           | H : span_digits _ = _ |- _ => apply span_digits_length in H
           end;
    cbn [length] in *; lia.
Qed.

Lemma match_number_length (s lexeme r : str) :
  match_number s = Some (lexeme, r) → (length r < length s)%nat.
Proof.
  unfold match_number. intros H.
  destruct (match_integer s) as [[i s1] |] eqn:Hi; [|discriminate].
  destruct (match_frac s1) as [f s2] eqn:Hf.
  destruct (match_exp s2) as [e s3] eqn:He.
  injection H as <- <-.
  apply match_integer_length in Hi. apply match_frac_length in Hf.
  apply match_exp_length in He. lia.
Qed.

Lemma strip_prefix_length (w s r : str) :
  strip_prefix w s = Some r → (length r + length w = length s)%nat.
Proof.
  revert s. induction w as [| a w IH]; intros s H; cbn [strip_prefix] in H.
  - injection H as <-. cbn. lia.
  - destruct s as [| b s]; [discriminate|].
    destruct (a =? b); [|discriminate].
    apply IH in H. cbn [length]. lia.
Qed.

Lemma scan_atom_length (lim : limits) (s : str) (v : value) (r : str) :
  scan_atom lim s = inr (v, r) → (length r < length s)%nat.
Proof.
  unfold scan_atom. intros H.
  repeat (case_match; try discriminate); subst;
    injection H as <- <-;
    repeat match goal with
           | H : strip_prefix _ _ = Some _ |- _ =>
             apply strip_prefix_length in H; cbn [length py] in H
           | H : match_number _ = Some _ |- _ => apply match_number_length in H
           end;
    try lia;
    match goal with H : (_ + length ?l = _)%nat |- _ =>
      change (length l) with (length (py "x")) in H || idtac
    end; cbn in *; lia.
Qed.

(** Whatever the scanner returns, it has consumed something. *)
Lemma scan_length (lim : limits) (fuel : nat) :
  (∀ depth s v r,
      scan_once lim depth fuel s = inr (v, r) → (length r < length s)%nat)
  ∧ (∀ depth s ps r,
      object_members lim depth fuel s = inr (ps, r) → (length r < length s)%nat)
  ∧ (∀ depth s vs r,
      array_items lim depth fuel s = inr (vs, r) → (length r < length s)%nat).
Proof.
  induction fuel as [| fuel (IHs & IHo & IHa)];
    [repeat split; intros; discriminate|].
  split; [|split].
  - intros depth s v r H. cbn [scan_once] in H.
    destruct s as [| c s1]; [discriminate|].
    destruct (c =? 34).
    { destruct (scanstring s1) as [[x r'] |] eqn:Hx; [|discriminate].
      injection H as <- <-. apply scanstring_length in Hx. cbn [length]. lia. }
    destruct (c =? 123).
    { destruct depth as [| depth]; [discriminate|].
      pose proof (skip_ws_length s1) as Hw.
      destruct (skip_ws s1) as [| c1 s2]; [discriminate|].
      destruct (c1 =? 125); [injection H as <- <-; cbn [length] in *; lia|].
      destruct (c1 =? 34); [|discriminate].
      destruct (object_members lim depth fuel s2) as [e | [ps r']] eqn:Ho;
      [discriminate|].
      injection H as <- <-. apply IHo in Ho. cbn [length] in *. lia. }
    destruct (c =? 91); [|apply scan_atom_length in H; exact H].
    destruct depth as [| depth]; [discriminate|].
    pose proof (skip_ws_length s1) as Hw.
    destruct (skip_ws s1) as [| c1 s2]; [discriminate|].
    destruct (c1 =? 93); [injection H as <- <-; cbn [length] in *; lia|].
    destruct (array_items lim depth fuel (c1 :: s2)) as [e | [vs r']] eqn:Ha;
      [discriminate|].
    injection H as <- <-. apply IHa in Ha. cbn [length] in *. lia.
  - intros depth s ps r H. cbn [object_members] in H.
    destruct (scanstring s) as [[k s1] |] eqn:Hk; [|discriminate].
    apply scanstring_length in Hk.
    pose proof (skip_ws_length s1) as Hw1.
    destruct (skip_ws s1) as [| c s2]; [discriminate|].
    destruct (c =? 58); [|discriminate].
    pose proof (skip_ws_length s2) as Hw2.
    destruct (scan_once lim depth fuel (skip_ws s2)) as [e | [v s3]] eqn:Hv;
      [discriminate|].
    apply IHs in Hv.
    pose proof (skip_ws_length s3) as Hw3.
    destruct (skip_ws s3) as [| c1 s4]; [discriminate|].
    destruct (c1 =? 125); [injection H as <- <-; cbn [length] in *; lia|].
    destruct (c1 =? 44); [|discriminate].
    pose proof (skip_ws_length s4) as Hw4.
    destruct (skip_ws s4) as [| c2 s5]; [discriminate|].
    destruct (c2 =? 34); [|discriminate].
    destruct (object_members lim depth fuel s5) as [e | [ps' r']] eqn:Ho;
      [discriminate|].
    injection H as <- <-. apply IHo in Ho. cbn [length] in *. lia.
  - intros depth s vs r H. cbn [array_items] in H.
    destruct (scan_once lim depth fuel s) as [e | [v s1]] eqn:Hv;
      [discriminate|].
    apply IHs in Hv.
    pose proof (skip_ws_length s1) as Hw1.
    destruct (skip_ws s1) as [| c s2]; [discriminate|].
    destruct (c =? 93); [injection H as <- <-; cbn [length] in *; lia|].
    destruct (c =? 44); [|discriminate].
    pose proof (skip_ws_length s2) as Hw2.
    destruct (array_items lim depth fuel (skip_ws s2)) as [e | [vs' r']] eqn:Ha;
      [discriminate|].
    injection H as <- <-. apply IHa in Ha. cbn [length] in *. lia.
Qed.

(** Past twice the length of the text (and one, or two for the item loop),
    more fuel changes nothing. *)
Lemma scan_fuel (lim : limits) (n : nat) :
  (∀ depth s f1 f2, (length s < n)%nat →
      (2 * length s + 1 ≤ f1)%nat → (2 * length s + 1 ≤ f2)%nat →
      scan_once lim depth f1 s = scan_once lim depth f2 s)
  ∧ (∀ depth s f1 f2, (length s < n)%nat →
      (2 * length s + 1 ≤ f1)%nat → (2 * length s + 1 ≤ f2)%nat →
      object_members lim depth f1 s = object_members lim depth f2 s)
  ∧ (∀ depth s f1 f2, (length s < n)%nat →
      (2 * length s + 2 ≤ f1)%nat → (2 * length s + 2 ≤ f2)%nat →
      array_items lim depth f1 s = array_items lim depth f2 s).
Proof.
  induction n as [| n (IHs & IHo & IHa)]; [repeat split; intros; lia|].
  assert (Hs : ∀ depth s f1 f2, (length s < S n)%nat →
             (2 * length s + 1 ≤ f1)%nat → (2 * length s + 1 ≤ f2)%nat →
             scan_once lim depth f1 s = scan_once lim depth f2 s).
  { intros depth s f1 f2 Hn H1 H2.
    destruct f1 as [| f1]; [lia|]. destruct f2 as [| f2]; [lia|].
    cbn [scan_once]. destruct s as [| c s1]; [reflexivity|].
    destruct (c =? 34); [reflexivity|].
    pose proof (skip_ws_length s1) as Hw.
    destruct (c =? 123).
    { destruct depth as [| depth]; [reflexivity|].
      destruct (skip_ws s1) as [| c1 s2]; [reflexivity|].
      destruct (c1 =? 125); [reflexivity|].
      destruct (c1 =? 34); [|reflexivity].
      rewrite (IHo depth s2 f1 f2) by (cbn [length] in *; lia). reflexivity. }
    destruct (c =? 91); [|reflexivity].
    destruct depth as [| depth]; [reflexivity|].
    destruct (skip_ws s1) as [| c1 s2]; [reflexivity|].
    destruct (c1 =? 93); [reflexivity|].
    rewrite (IHa depth (c1 :: s2) f1 f2) by (cbn [length] in *; lia).
    reflexivity. }
  split; [exact Hs|]. split.
  - intros depth s f1 f2 Hn H1 H2.
    destruct f1 as [| f1]; [lia|]. destruct f2 as [| f2]; [lia|].
    cbn [object_members].
    destruct (scanstring s) as [[k s1] |] eqn:Hk; [|reflexivity].
    apply scanstring_length in Hk.
    pose proof (skip_ws_length s1) as Hw1.
    destruct (skip_ws s1) as [| c s2]; [reflexivity|].
    destruct (c =? 58); [|reflexivity].
    pose proof (skip_ws_length s2) as Hw2.
    rewrite (IHs depth (skip_ws s2) f1 f2) by (cbn [length] in *; lia).
    destruct (scan_once lim depth f2 (skip_ws s2)) as [e | [v s3]] eqn:Hv;
      [reflexivity|].
    apply scan_length in Hv.
    pose proof (skip_ws_length s3) as Hw3.
    destruct (skip_ws s3) as [| c1 s4]; [reflexivity|].
    destruct (c1 =? 125); [reflexivity|].
    destruct (c1 =? 44); [|reflexivity].
    pose proof (skip_ws_length s4) as Hw4.
    destruct (skip_ws s4) as [| c2 s5]; [reflexivity|].
    destruct (c2 =? 34); [|reflexivity].
    rewrite (IHo depth s5 f1 f2) by (cbn [length] in *; lia). reflexivity.
  - intros depth s f1 f2 Hn H1 H2.
    destruct f1 as [| f1]; [lia|]. destruct f2 as [| f2]; [lia|].
    cbn [array_items].
    rewrite (Hs depth s f1 f2) by lia.
    destruct (scan_once lim depth f2 s) as [e | [v s1]] eqn:Hv;
      [reflexivity|].
    apply scan_length in Hv.
    pose proof (skip_ws_length s1) as Hw1.
    destruct (skip_ws s1) as [| c s2]; [reflexivity|].
    destruct (c =? 93); [reflexivity|].
    destruct (c =? 44); [|reflexivity].
    pose proof (skip_ws_length s2) as Hw2.
    rewrite (IHa depth (skip_ws s2) f1 f2) by (cbn [length] in *; lia).
    reflexivity.
Qed.

(** The fuel [loads] hands to the scanner is enough: with any more of it
    the scanner returns the same, so that no error is want of fuel. *)
Lemma scan_once_fuel (lim : limits) (depth : nat) (s : str) (fuel : nat) :
  (2 * length s + 2 ≤ fuel)%nat →
  scan_once lim depth fuel (skip_ws s)
  = scan_once lim depth (S (S (2 * length s))) (skip_ws s).
Proof.
  intros Hfuel. pose proof (skip_ws_length s) as Hw.
  apply (proj1 (scan_fuel lim (S (length (skip_ws s))))); lia.
Qed.

End JsonFacts.

(** ** What [bytes.decode] returns *)

Module BytesFacts.
Import Bytes.

Lemma byte_val_range (b : byte) : 0 ≤ byte_val b < 256.
Proof.
  unfold byte_val. pose proof (Byte.to_N_bounded b). lia.
Qed.

Lemma two_octets_bound (c0 c1 : Z) :
  0 ≤ Z.lor (Z.shiftl (Z.land c0 31) 6) (Z.land c1 63) < 2048.
Proof. bits_to_arith. Z.div_mod_to_equations. lia. Qed.

Lemma three_octets_bound (c0 c1 c2 : Z) :
  0 ≤ Z.lor (Z.shiftl (Z.land c0 15) 12)
            (Z.lor (Z.shiftl (Z.land c1 63) 6) (Z.land c2 63)) < 65536.
Proof.
  bits_to_arith.
  rewrite (lor_shiftl_add (c1 mod 64)) by (Z.div_mod_to_equations; lia).
  rewrite lor_shiftl_add by (Z.div_mod_to_equations; lia).
  bits_to_arith. Z.div_mod_to_equations. lia.
Qed.

Ltac tests_to_props :=
  repeat match goal with
  | H : _ && _ = true |- _ => apply andb_true_iff in H as [? ?]
  | H : negb _ = true |- _ => apply negb_true_iff in H
  | H : _ && _ = false |- _ => apply andb_false_iff in H as [? | ?]
  | H : (_ <=? _) = true |- _ => apply Z.leb_le in H
  | H : (_ <=? _) = false |- _ => apply Z.leb_gt in H
  | H : (_ <? _) = true |- _ => apply Z.ltb_lt in H
  | H : (_ <? _) = false |- _ => apply Z.ltb_ge in H
  end.

Lemma decode_utf8_scalar_aux (n : nat) :
  ∀ (b : bytes) (s : str),
    (length b ≤ n)%nat → decode_utf8 b = Some s → Forall scalar s.
Proof.
  induction n as [n IH] using lt_wf_ind.
  intros b s Hlen Hdec. destruct b as [| b0 t0].
  { injection Hdec as <-. constructor. }
  cbn [decode_utf8] in Hdec. cbv zeta in Hdec.
  pose proof (byte_val_range b0) as Hb0.
  repeat (case_match; try discriminate); subst;
    apply fmap_Some in Hdec as (s' & Hs' & ->);
    (constructor;
     [ | eapply (IH (pred n)); [ | | exact Hs']; cbn [length] in *; lia ]);
    tests_to_props; unfold scalar, low6 in *;
    try match goal with
        | |- context [Z.lor (Z.shiftl (Z.land ?a 15) 12)
                            (Z.lor (Z.shiftl (Z.land ?b 63) 6) (Z.land ?c 63))] =>
          pose proof (three_octets_bound a b c)
        | |- context [Z.lor (Z.shiftl (Z.land ?a 31) 6) (Z.land ?b 63)] =>
          pose proof (two_octets_bound a b)
        end;
    lia.
Qed.

(** Decoded text holds no surrogate and nothing beyond U+10FFFF. *)
Lemma decode_utf8_scalar (b : bytes) (s : str) :
  decode_utf8 b = Some s → Forall scalar s.
Proof. apply (decode_utf8_scalar_aux (length b)). lia. Qed.

End BytesFacts.

Module StripFacts.
Import Bytes.

Lemma isspace_char (b : byte) : isspace b = is_space_char (byte_val b).
Proof. reflexivity. Qed.

Lemma lstrip_head (b : bytes) (c : byte) :
  head (lstrip b) = Some c → isspace c = false.
Proof.
  induction b as [| b0 b IH]; [discriminate|].
  cbn [lstrip]. destruct (isspace b0) eqn:Hs; [exact IH|].
  cbn. intros H. injection H as <-. exact Hs.
Qed.

Lemma lstrip_suffix (b : bytes) : ∃ k, b = k ++ lstrip b.
Proof.
  induction b as [| b0 b (k & IH)]; [exists []; reflexivity|].
  cbn [lstrip]. destruct (isspace b0).
  - exists (b0 :: k). cbn. f_equal. exact IH.
  - exists []. reflexivity.
Qed.

Lemma rstrip_prefix (b : bytes) : ∃ k, b = rstrip b ++ k.
Proof.
  unfold rstrip. destruct (lstrip_suffix (rev b)) as (k & Hk).
  exists (rev k). rewrite <- rev_app_distr, <- Hk, rev_involutive. reflexivity.
Qed.

Lemma last_rev_head {A} (l : list A) : last (rev l) = head l.
Proof.
  destruct l as [| x l]; [reflexivity|]. cbn [rev head]. apply last_snoc.
Qed.

Lemma rstrip_last (b : bytes) (c : byte) :
  last (rstrip b) = Some c → isspace c = false.
Proof. unfold rstrip. rewrite last_rev_head. apply lstrip_head. Qed.

(** [strip] leaves no white space at either end. *)
Lemma strip_ends (b : bytes) :
  (∀ c, head (strip b) = Some c → isspace c = false)
  ∧ (∀ c, last (strip b) = Some c → isspace c = false).
Proof.
  unfold strip. split; [|intros c; apply rstrip_last].
  intros c Hc. destruct (rstrip_prefix (lstrip b)) as (k & Hk).
  apply (lstrip_head b). rewrite Hk.
  destruct (rstrip (lstrip b)); [discriminate | exact Hc].
Qed.

Lemma lstrip_blank (b : bytes) : Forall (λ c, isspace c = true) b → lstrip b = [].
Proof.
  induction 1 as [| c b Hc _ IH]; [reflexivity|].
  cbn [lstrip]. rewrite Hc. exact IH.
Qed.

(** Nothing but white space strips to nothing. *)
Lemma strip_blank (b : bytes) : Forall (λ c, isspace c = true) b → strip b = [].
Proof. intros H. unfold strip. rewrite lstrip_blank by exact H. reflexivity. Qed.

Lemma decode_utf8_nil (b : bytes) : decode_utf8 b = Some [] → b = [].
Proof.
  destruct b as [| b0 t0]; [reflexivity|]. cbn [decode_utf8]. cbv zeta.
  intros H. repeat (case_match; try discriminate);
    apply fmap_Some in H as (s' & _ & Hs'); discriminate Hs'.
Qed.

(** A first character below 128 is the first octet. *)
Lemma decode_utf8_head (b : bytes) (v : str) (c : Z) :
  decode_utf8 b = Some v → head v = Some c → c < 128 →
  ∃ b0, head b = Some b0 ∧ byte_val b0 = c.
Proof.
  destruct b as [| b0 t0]; [intros H; injection H as <-; discriminate|].
  cbn [decode_utf8]. cbv zeta. intros H Hc Hlt.
  repeat (case_match; try discriminate); subst;
    apply fmap_Some in H as (s' & _ & ->); cbn in Hc; injection Hc as <-;
    BytesFacts.tests_to_props; try lia.
  exists b0. split; reflexivity.
Qed.

Lemma last_cons_Some {A} (a x : A) (l : list A) :
  last l = Some x → last (a :: l) = Some x.
Proof. destruct l; [discriminate | intros H; exact H]. Qed.

Lemma decode_utf8_last_aux (n : nat) :
  ∀ (b : bytes) (v : str) (c : Z),
    (length b ≤ n)%nat →
    decode_utf8 b = Some v → last v = Some c → c < 128 →
    ∃ b0, last b = Some b0 ∧ byte_val b0 = c.
Proof.
  induction n as [n IH] using lt_wf_ind.
  intros b v c Hlen H Hc Hlt.
  destruct b as [| b0 t0]; [injection H as <-; discriminate|].
  cbn [decode_utf8] in H. cbv zeta in H.
  repeat (case_match; try discriminate); subst;
    apply fmap_Some in H as (s' & Hs' & ->);
    (destruct s' as [| c' s''];
     [ apply decode_utf8_nil in Hs'; subst; cbn in Hc; injection Hc as <-;
       BytesFacts.tests_to_props; try lia; exists b0; split; reflexivity
     | change (last (_ :: c' :: s'')) with (last (c' :: s'')) in Hc;
       eapply (IH (pred n)) in Hs';
       [ | cbn [length] in *; lia | cbn [length] in *; lia | exact Hc | exact Hlt ];
       destruct Hs' as (bl & Hbl & Hval); exists bl; split; [|exact Hval];
       repeat apply last_cons_Some; exact Hbl ]).
Qed.

Lemma decode_utf8_last (b : bytes) (v : str) (c : Z) :
  decode_utf8 b = Some v → last v = Some c → c < 128 →
  ∃ b0, last b = Some b0 ∧ byte_val b0 = c.
Proof. apply (decode_utf8_last_aux (length b)). lia. Qed.

Lemma is_space_char_small (c : Z) : is_space_char c = true → c < 128.
Proof.
  unfold is_space_char. intros H.
  apply orb_true_iff in H as [H | H].
  - apply Z.eqb_eq in H. lia.
  - apply andb_true_iff in H as [_ H]. apply Z.leb_le in H. lia.
Qed.

(** What the exporter captures is trimmed. *)
Lemma captured_trimmed (c : CompletedProcess) (v : str) :
  captured c = Some v → trimmed v.
Proof.
  unfold captured. intros Hv.
  destruct (strip_ends (stdout c)) as [Hh Hl].
  split; intros x Hx; destruct (is_space_char x) eqn:Hs; try reflexivity;
    exfalso; pose proof (is_space_char_small x Hs) as Hlt.
  - destruct (decode_utf8_head _ _ _ Hv Hx Hlt) as (b0 & Hb0 & Hval).
    apply Hh in Hb0. rewrite isspace_char, Hval, Hs in Hb0. discriminate.
  - destruct (decode_utf8_last _ _ _ Hv Hx Hlt) as (b0 & Hb0 & Hval).
    apply Hl in Hb0. rewrite isspace_char, Hval, Hs in Hb0. discriminate.
Qed.

(** White space as [isspace] has it is white space octet by octet. *)
Lemma isspace_whitespace (b : byte) : isspace b = true ↔ b ∈ whitespace.
Proof.
  unfold whitespace. rewrite !elem_of_cons, elem_of_nil.
  destruct b; split; intros H;
    first [ discriminate H
          | reflexivity
          | intuition congruence ].
Qed.

Lemma lstrip_split (b : bytes) :
  ∃ k, b = k ++ lstrip b ∧ Forall (λ c, c ∈ whitespace) k.
Proof.
  induction b as [| b0 b (k & IH & Hk)]; [exists []; split; [reflexivity | constructor]|].
  cbn [lstrip]. destruct (isspace b0) eqn:Hs.
  - exists (b0 :: k). split; [cbn; f_equal; exact IH|].
    constructor; [apply isspace_whitespace, Hs | exact Hk].
  - exists []. split; [reflexivity | constructor].
Qed.

Lemma rstrip_split (b : bytes) :
  ∃ k, b = rstrip b ++ k ∧ Forall (λ c, c ∈ whitespace) k.
Proof.
  unfold rstrip. destruct (lstrip_split (rev b)) as (k & Hk & Hws).
  exists (rev k). split.
  - rewrite <- rev_app_distr, <- Hk, rev_involutive. reflexivity.
  - apply Forall_rev, Hws.
Qed.

(** [strip] meets its specification. *)
Lemma strip_stripped (raw : bytes) : stripped raw (strip raw).
Proof.
  destruct (lstrip_split raw) as (pre & Hpre & Hws1).
  destruct (rstrip_split (lstrip raw)) as (post & Hpost & Hws2).
  destruct (strip_ends raw) as [Hh Hl].
  exists pre, post. unfold strip in *.
  split; [rewrite <- Hpost; exact Hpre|].
  split; [exact Hws1|]. split; [exact Hws2|].
  split; intros b Hb Hin; apply isspace_whitespace in Hin.
  - rewrite (Hh b Hb) in Hin. discriminate.
  - rewrite (Hl b Hb) in Hin. discriminate.
Qed.

(** Octets below 128 decode to themselves. *)
Lemma decode_utf8_ascii (b : bytes) :
  ∀ v, decode_utf8 b = Some v →
       Forall (λ c, byte_val c < 128) b → v = byte_val <$> b.
Proof.
  induction b as [| b0 b IH]; intros v Hv Hsmall.
  - injection Hv as <-. reflexivity.
  - apply Forall_cons in Hsmall as [H0 Hsmall].
    cbn [decode_utf8] in Hv. cbv zeta in Hv.
    destruct (Z.ltb_spec (byte_val b0) 128) as [_ | Hge]; [|lia].
    apply fmap_Some in Hv as (v' & Hv' & ->).
    cbn. f_equal. apply IH; assumption.
Qed.

(** What the exporter captures is what the query printed, stripped and
    decoded. *)
Lemma captured_recorded (c : CompletedProcess) (v : str) :
  captured c = Some v → recorded c v.
Proof.
  intros Hv. exists (strip (stdout c)).
  split; [apply strip_stripped|]. split; [exact Hv|].
  intros Hsmall. eapply decode_utf8_ascii; eassumption.
Qed.

End StripFacts.

(** ** The scripts, stanza by stanza *)

Lemma py_scalar (s : string) : Forall scalar (py s).
Proof.
  unfold py. apply Forall_fmap, Forall_forall. intros b _. cbn.
  pose proof (BytesFacts.byte_val_range b). unfold scalar. lia.
Qed.

Lemma fsencode_strings (argv : list str) :
  fsencode_args (Json.JString <$> argv) = Some argv.
Proof.
  induction argv as [| a argv IH]; [reflexivity|].
  cbn [fmap list_fmap fsencode_args]. fold (fmap (M := list) Json.JString argv).
  rewrite IH. reflexivity.
Qed.

Lemma fill_table (vs : list str) :
  length vs = 5%nat → fill [] settings_table vs = zip record_keys vs.
Proof.
  intros Hlen.
  do 5 (destruct vs as [| ? vs]; [discriminate Hlen|]).
  destruct vs; [|discriminate Hlen]. reflexivity.
Qed.

Lemma zip_record_keys (vs : list str) :
  length vs = 5%nat → (zip record_keys vs).*1 = record_keys.
Proof.
  intros Hlen.
  do 5 (destruct vs as [| ? vs]; [discriminate Hlen|]).
  destruct vs; [|discriminate Hlen]. reflexivity.
Qed.

Section ScriptFacts.

Context {Store : Type}.
Variable spawn : list str → Store → (exn + CompletedProcess) * Store.

Local Abbreviation World := (World (Store := Store)).

Lemma exporter_is_loop : exporter spawn = export_loop spawn settings_table [].
Proof. reflexivity. Qed.

Lemma importer_is_loop :
  importer spawn
  = bind (json_load "settings.json")
         (λ settings, import_loop spawn settings settings_table).
Proof. reflexivity. Qed.

Lemma subprocess_run_strings (argv : list str) (w : World) :
  subprocess_run spawn (Json.JString <$> argv) w
  = ((spawn argv (store w)).1,
     after w (spawn argv (store w)).2 [(argv, (spawn argv (store w)).1)]).
Proof.
  unfold subprocess_run. rewrite fsencode_strings.
  destruct (spawn argv (store w)). reflexivity.
Qed.

(** One stanza of the exporter. *)
Lemma export_loop_cons (q : Setting) (qs : list Setting)
      (d : list (str * str)) (w : World) :
  export_loop spawn (q :: qs) d w
  = match spawn (get_argv q) (store w) with
    | (inl e, st) =>
      (inl e, after w st [(get_argv q, inl e)])
    | (inr c, st) =>
      let w1 := after w st [(get_argv q, inr c)] in
      match captured c with
      | None => (inl UnicodeDecodeError, w1)
      | Some v => export_loop spawn qs (setitem d (py (record_key q)) v) w1
      end
    end.
Proof.
  cbn [export_loop]. unfold bind at 1. rewrite subprocess_run_strings.
  destruct (spawn (get_argv q) (store w)) as [[e | c] st]; cbn [fst snd].
  - reflexivity.
  - unfold bind, decode, captured.
    destruct (Bytes.decode_utf8 (Bytes.strip (stdout c))); reflexivity.
Qed.

(** One stanza of the importer. *)
Lemma import_loop_cons (settings : Json.value) (q : Setting)
      (qs : list Setting) (w : World) :
  import_loop spawn settings (q :: qs) w
  = match lookup_key settings (record_key q) with
    | inl e => (inl e, w)
    | inr (Json.JString v) =>
      match spawn (set_argv q v) (store w) with
      | (inl e, st) =>
        (inl e, after w st [(set_argv q v, inl e)])
      | (inr c, st) =>
        import_loop spawn settings qs (after w st [(set_argv q v, inr c)])
      end
    | inr _ => (inl TypeError, w)
    end.
Proof.
  cbn [import_loop]. unfold bind at 1, subscript, lookup_key.
  destruct settings as [| | | | | pairs]; try reflexivity.
  destruct (Json.getitem pairs (py (record_key q))) as [v |]; [|reflexivity].
  unfold ret.
  destruct v as [| | | s | |]; try reflexivity.
  unfold bind, subprocess_run, set_argv.
  cbn [fmap list_fmap app fsencode_args option_fmap option_map].
  destruct (spawn _ (store w)) as [[e | c] st]; reflexivity.
Qed.

Lemma after_nil (w : World) : after w (store w) [] = w.
Proof. destruct w. unfold after. cbn. rewrite app_nil_r. reflexivity. Qed.

Lemma after_after (w : World) st1 new1 st2 new2 :
  after (after w st1 new1) st2 new2 = after w st2 (new1 ++ new2).
Proof. unfold after. cbn. rewrite app_assoc. reflexivity. Qed.

(** *** The exporter *)

(** A prefix of read queries that all complete and decode. *)
Lemma export_loop_app (qs1 qs2 : list Setting) :
  ∀ (d : list (str * str)) (w : World) cs st1 vs,
    spawn_all spawn (get_argv <$> qs1) (store w) = Some (cs, st1) →
    Forall2 (λ c v, captured c = Some v) cs vs →
    export_loop spawn (qs1 ++ qs2) d w
    = export_loop spawn qs2 (fill d qs1 vs)
        (after w st1 (completed (get_argv <$> qs1) cs)).
Proof.
  induction qs1 as [| q qs1 IH]; intros d w cs st1 vs Hall Hvs.
  - cbn in Hall. injection Hall as <- <-. inversion Hvs; subst.
    cbn [app]. unfold completed. cbn. rewrite after_nil. reflexivity.
  - cbn [fmap list_fmap spawn_all] in Hall.
    fold (fmap (M := list) get_argv qs1) in Hall.
    cbn [app]. rewrite export_loop_cons.
    destruct (spawn (get_argv q) (store w)) as [[e | c] st]; [discriminate|].
    destruct (spawn_all spawn (get_argv <$> qs1) st) as [[cs' st'] |] eqn:Hrest;
      [|discriminate].
    injection Hall as <- <-.
    inversion Hvs as [| c0 v cs0 vs' Hc Hvs' ]; subst.
    rewrite Hc. cbv zeta.
    erewrite IH; [| exact Hrest | exact Hvs'].
    fold (after w st [(get_argv q, inr c)]). rewrite after_after.
    reflexivity.
Qed.

Lemma export_loop_nil (d : list (str * str)) (w : World) :
  export_loop spawn [] d w
  = match unwritable w !! "settings.json" with
    | Some e => (inl e, w)
    | None => (inr (), written w "settings.json" (Json.dumps d))
    end.
Proof. reflexivity. Qed.

(** Every run of the exporter, classified: it either returns, all five
    queries having completed and decoded, or raises with the files as
    they were. *)
Lemma export_loop_inv (qs : list Setting) :
  ∀ (d : list (str * str)) (w : World) r w',
    export_loop spawn qs d w = (r, w') →
    match r with
    | inr _ =>
      ∃ cs st' vs,
        spawn_all spawn (get_argv <$> qs) (store w) = Some (cs, st')
        ∧ Forall2 (λ c v, captured c = Some v) cs vs
        ∧ unwritable w !! "settings.json" = None
        ∧ w' = written (after w st' (completed (get_argv <$> qs) cs))
                 "settings.json" (Json.dumps (fill d qs vs))
    | inl _ => files w' = files w
    end.
Proof.
  induction qs as [| q qs IH]; intros d w r w' Hrun.
  - rewrite export_loop_nil in Hrun.
    destruct (unwritable w !! "settings.json") eqn:Hopen;
      injection Hrun as <- <-; [reflexivity|].
    exists [], (store w), []. repeat split; [constructor|].
    unfold completed. cbn. rewrite after_nil. reflexivity.
  - rewrite export_loop_cons in Hrun.
    cbn [fmap list_fmap spawn_all]. fold (fmap (M := list) get_argv qs).
    destruct (spawn (get_argv q) (store w)) as [[e | c] st].
    { injection Hrun as <- <-. reflexivity. }
    cbv zeta in Hrun. destruct (captured c) as [v |] eqn:Hc.
    2:{ injection Hrun as <- <-. reflexivity. }
    apply IH in Hrun. destruct r as [e | []]; [exact Hrun|].
    destruct Hrun as (cs & st' & vs & Hall & Hvs & Hopen & ->).
    cbn [store after] in Hall.
    exists (c :: cs), st', (v :: vs). rewrite Hall.
    repeat split; [constructor; assumption | exact Hopen |].
    rewrite after_after. reflexivity.
Qed.

(** The exporter spawns read queries of the table and nothing else. *)
Lemma export_loop_calls (qs : list Setting) :
  ∀ (d : list (str * str)) (w : World),
    ∃ new,
      calls (export_loop spawn qs d w).2 = calls w ++ new
      ∧ Forall (λ call : Call, ∃ q, q ∈ qs ∧ call.1 = get_argv q) new.
Proof.
  induction qs as [| q qs IH]; intros d w.
  - exists []. rewrite export_loop_nil, app_nil_r.
    destruct (unwritable w !! "settings.json"); split; (reflexivity || constructor).
  - rewrite export_loop_cons.
    assert (Hq : ∀ r, ∃ q0, q0 ∈ q :: qs ∧ (get_argv q, r : exn + CompletedProcess).1 = get_argv q0)
      by (intros r; exists q; split; [left | reflexivity]).
    destruct (spawn (get_argv q) (store w)) as [[e | c] st].
    { eexists [_]. split; [reflexivity|]. repeat constructor. apply Hq. }
    cbv zeta. destruct (captured c) as [v |].
    2:{ eexists [_]. split; [reflexivity|]. repeat constructor. apply Hq. }
    edestruct IH as (new & -> & Hnew). cbn [calls after].
    exists ((get_argv q, inr c) :: new). rewrite <- app_assoc.
    split; [reflexivity|]. constructor; [apply Hq|].
    eapply Forall_impl; [exact Hnew|]. intros call (q0 & Hin & Heq).
    exists q0. split; [right; exact Hin | exact Heq].
Qed.

(** Reads that leave the store alone leave it alone all along. *)
Lemma export_loop_store (qs : list Setting) :
  ∀ (d : list (str * str)) (w : World),
    Forall (λ q, (spawn (get_argv q) (store w)).2 = store w) qs →
    store (export_loop spawn qs d w).2 = store w.
Proof.
  induction qs as [| q qs IH]; intros d w Hpure.
  { rewrite export_loop_nil.
    destruct (unwritable w !! "settings.json"); reflexivity. }
  apply Forall_cons in Hpure as [Hq Hqs].
  rewrite export_loop_cons.
  destruct (spawn (get_argv q) (store w)) as [[e | c] st]; cbn [snd] in Hq;
    subst st; [reflexivity|].
  cbv zeta. destruct (captured c); [|reflexivity].
  rewrite IH; [reflexivity | exact Hqs].
Qed.

(** *** The importer *)

(** A prefix of writes that all complete. *)
Lemma import_loop_app (settings : Json.value) (qs1 qs2 : list Setting) :
  ∀ (w : World) vs cs st1,
    holds settings qs1 vs →
    spawn_all spawn (zip_with set_argv qs1 vs) (store w) = Some (cs, st1) →
    import_loop spawn settings (qs1 ++ qs2) w
    = import_loop spawn settings qs2
        (after w st1 (completed (zip_with set_argv qs1 vs) cs)).
Proof.
  induction qs1 as [| q qs1 IH]; intros w vs cs st1 Hvs Hall.
  - inversion Hvs; subst. cbn in Hall. injection Hall as <- <-.
    unfold completed. cbn. rewrite after_nil. reflexivity.
  - inversion Hvs as [| q0 v qs0 vs' Hq Hvs']; subst.
    cbn [zip_with spawn_all] in Hall.
    cbn [app]. rewrite import_loop_cons, Hq.
    destruct (spawn (set_argv q v) (store w)) as [[e | c] st]; [discriminate|].
    destruct (spawn_all spawn (zip_with set_argv qs1 vs') st)
      as [[cs' st'] |] eqn:Hrest; [|discriminate].
    injection Hall as <- <-.
    erewrite IH; [| exact Hvs' | exact Hrest].
    fold (after w st [(set_argv q v, inr c)]). rewrite after_after.
    reflexivity.
Qed.

(** The importer spawns writes of the table and nothing else, and
    leaves the files alone. *)
Lemma import_loop_calls (settings : Json.value) (qs : list Setting) :
  ∀ (w : World),
    ∃ new,
      calls (import_loop spawn settings qs w).2 = calls w ++ new
      ∧ Forall (λ call : Call, ∃ q v, q ∈ qs ∧ call.1 = set_argv q v) new.
Proof.
  induction qs as [| q qs IH]; intros w.
  - exists []. cbn. rewrite app_nil_r. split; [reflexivity | constructor].
  - rewrite import_loop_cons.
    assert (Hq : ∀ v r, ∃ q0 v0, q0 ∈ q :: qs
              ∧ (set_argv q v, r : exn + CompletedProcess).1 = set_argv q0 v0)
      by (intros v r; exists q, v; split; [left | reflexivity]).
    destruct (lookup_key settings (record_key q)) as [e | v].
    { exists []. cbn. rewrite app_nil_r. split; [reflexivity | constructor]. }
    destruct v as [| | | v | |];
      try (exists []; cbn; rewrite app_nil_r; split; [reflexivity | constructor]).
    destruct (spawn (set_argv q v) (store w)) as [[e | c] st].
    { eexists [_]. split; [reflexivity|]. repeat constructor. apply Hq. }
    edestruct IH as (new & -> & Hnew). cbn [calls after].
    exists ((set_argv q v, inr c) :: new). rewrite <- app_assoc.
    split; [reflexivity|]. constructor; [apply Hq|].
    eapply Forall_impl; [exact Hnew|]. intros call (q0 & v0 & Hin & Heq).
    exists q0, v0. split; [right; exact Hin | exact Heq].
Qed.

Lemma importer_unfold (w : World) :
  importer spawn w
  = match files w !! "settings.json" with
    | None => (inl FileNotFoundError, w)
    | Some text =>
      match Json.loads (interpreter w) text with
      | inl e => (inl e, w)
      | inr settings => import_loop spawn settings settings_table w
      end
    end.
Proof.
  rewrite importer_is_loop. unfold bind, json_load.
  destruct (files w !! "settings.json") as [text |]; [|reflexivity].
  destruct (Json.loads (interpreter w) text); reflexivity.
Qed.

(** A record with all five strings, on a machine where the five writes
    can be spawned: the importer runs them in order and returns. *)
Lemma importer_run (w : World) text settings vs cs st' :
  files w !! "settings.json" = Some text →
  Json.loads (interpreter w) text = inr settings →
  holds settings settings_table vs →
  spawn_all spawn (zip_with set_argv settings_table vs) (store w)
  = Some (cs, st') →
  importer spawn w
  = (inr (), after w st' (completed (zip_with set_argv settings_table vs) cs)).
Proof.
  intros Hfile Hload Hvs Hall.
  rewrite importer_unfold, Hfile, Hload.
  rewrite <- (app_nil_r settings_table) at 1.
  erewrite import_loop_app; [| exact Hvs | exact Hall]. reflexivity.
Qed.

(** Nothing the exporter does changes what can be opened. *)
Lemma export_loop_unwritable (qs : list Setting) :
  ∀ (d : list (str * str)) (w : World),
    unwritable (export_loop spawn qs d w).2 = unwritable w.
Proof.
  induction qs as [| q qs IH]; intros d w.
  - rewrite export_loop_nil.
    destruct (unwritable w !! "settings.json"); reflexivity.
  - rewrite export_loop_cons.
    destruct (spawn (get_argv q) (store w)) as [[e | c] st]; [reflexivity|].
    cbv zeta. destruct (captured c); [|reflexivity].
    rewrite IH. reflexivity.
Qed.

Lemma import_loop_files (settings : Json.value) (qs : list Setting) :
  ∀ w : World, files (import_loop spawn settings qs w).2 = files w.
Proof.
  induction qs as [| q qs IH]; intros w; [reflexivity|].
  rewrite import_loop_cons.
  destruct (lookup_key settings (record_key q)) as [e | v]; [reflexivity|].
  destruct v as [| | | v | |]; try reflexivity.
  destruct (spawn (set_argv q v) (store w)) as [[e | c] st]; [reflexivity|].
  rewrite IH. reflexivity.
Qed.

(** A key the document lacks is never reached by more than its own
    lookup: the run fails, and the writes it has issued by then are those
    of keys ahead of that key, in order, each with the string the document
    holds for it.  The run has stopped at the next key, whose lookup
    failed or gave something that is no string, or at the last write
    issued, which could not be spawned. *)
Lemma import_loop_missing (settings : Json.value) (qs : list Setting) :
  ∀ (w : World) (i : nat) q e,
    qs !! i = Some q →
    lookup_key settings (record_key q) = inl e →
    ∃ e' vs,
      (import_loop spawn settings qs w).1 = inl e'
      ∧ (calls (import_loop spawn settings qs w).2).*1
        = (calls w).*1 ++ zip_with set_argv qs vs
      ∧ (length vs ≤ i)%nat
      ∧ holds settings (take (length vs) qs) vs
      ∧ ((∃ q', qs !! length vs = Some q'
                ∧ lookup_key settings (record_key q') = inl e')
         ∨ (∃ q' v, qs !! length vs = Some q'
                    ∧ lookup_key settings (record_key q') = inr v
                    ∧ is_string v = false ∧ e' = TypeError)
         ∨ (∃ argv, last (zip_with set_argv qs vs) = Some argv
                    ∧ last (calls (import_loop spawn settings qs w).2)
                      = Some (argv, inl e'))).
Proof.
  induction qs as [| q0 qs IH]; intros w i q e Hq Hmiss; [discriminate Hq|].
  rewrite import_loop_cons.
  assert (Hstop : ∀ (e' : exn),
             lookup_key settings (record_key q0) = inl e'
             ∨ (∃ v, lookup_key settings (record_key q0) = inr v
                     ∧ is_string v = false ∧ e' = TypeError) →
             ∃ e'' vs,
               (inl e' : exn + unit) = inl e''
               ∧ (calls w).*1 = (calls w).*1 ++ zip_with set_argv (q0 :: qs) vs
               ∧ (length vs ≤ i)%nat
               ∧ holds settings (take (length vs) (q0 :: qs)) vs
               ∧ ((∃ q', (q0 :: qs) !! length vs = Some q'
                         ∧ lookup_key settings (record_key q') = inl e'')
                  ∨ (∃ q' v, (q0 :: qs) !! length vs = Some q'
                             ∧ lookup_key settings (record_key q') = inr v
                             ∧ is_string v = false ∧ e'' = TypeError)
                  ∨ (∃ argv, last (zip_with set_argv (q0 :: qs) vs) = Some argv
                             ∧ last (calls w) = Some (argv, inl e'')))).
  { intros e' Hwhy. exists e', []. cbn. rewrite app_nil_r.
    repeat split; [lia | constructor |].
    destruct Hwhy as [Hl | (v & Hl & Hv & He)].
    - left. exists q0. split; [reflexivity | exact Hl].
    - right. left. exists q0, v. repeat split; assumption. }
  destruct i as [| i].
  { injection Hq as ->. rewrite Hmiss. cbn [fst snd].
    apply Hstop. left. exact Hmiss. }
  cbn [lookup list_lookup] in Hq.
  destruct (lookup_key settings (record_key q0)) as [e0 | v] eqn:Hq0.
  { cbn [fst snd]. apply Hstop. left. reflexivity. }
  destruct v as [| | | v | |];
    try (cbn [fst snd]; apply Hstop; right; eexists; repeat split; reflexivity).
  destruct (spawn (set_argv q0 v) (store w)) as [[e1 | c] st].
  { exists e1, [v]. cbn [fst snd calls after length zip_with take].
    rewrite fmap_app. cbn [fmap list_fmap fst].
    split; [reflexivity|]. split; [destruct qs; reflexivity|].
    split; [lia|]. split; [constructor; [exact Hq0 | constructor]|].
    right. right. exists (set_argv q0 v).
    split; [destruct qs; reflexivity | apply last_snoc]. }
  destruct (IH (after w st [(set_argv q0 v, inr c)]) i q e Hq Hmiss)
    as (e' & vs & He & Hc & Hn & Hvs & Hwhy).
  exists e', (v :: vs). rewrite He, Hc.
  cbn [calls after length zip_with take]. rewrite fmap_app, <- app_assoc.
  cbn [fmap list_fmap fst app lookup list_lookup].
  split; [reflexivity|]. split; [reflexivity|]. split; [lia|].
  split; [constructor; [exact Hq0 | exact Hvs]|].
  destruct Hwhy as [Hw | [Hw | (argv & Hlast & Hcall)]];
    [left; exact Hw | right; left; exact Hw |].
  right. right. exists argv. split; [|exact Hcall].
  destruct (zip_with set_argv qs vs); [discriminate Hlast | exact Hlast].
Qed.

End ScriptFacts.

(** ** The claims *)

Section Claims.

Context {Store : Type}.
Variable spawn : list str → Store → (exn + CompletedProcess) * Store.

Local Abbreviation World := (World (Store := Store)).

Lemma spawn_all_length (argvs : list (list str)) :
  ∀ st cs st',
    spawn_all spawn argvs st = Some (cs, st') → length cs = length argvs.
Proof.
  induction argvs as [| a argvs IH]; intros st cs st' H; cbn in H.
  - injection H as <- <-. reflexivity.
  - destruct (spawn a st) as [[e | c] st1]; [discriminate|].
    destruct (spawn_all spawn argvs st1) as [[cs' st2] |] eqn:Hr; [|discriminate].
    injection H as <- <-. cbn. f_equal. eapply IH, Hr.
Qed.

Lemma captured_length (cs : list CompletedProcess) (vs : list str) st st' :
  spawn_all spawn (get_argv <$> settings_table) st = Some (cs, st') →
  Forall2 (λ c v, captured c = Some v) cs vs →
  length vs = 5%nat.
Proof.
  intros Hall Hvs. apply Forall2_length in Hvs.
  apply spawn_all_length in Hall. rewrite <- Hvs, Hall. reflexivity.
Qed.

Lemma captured_scalar (cs : list CompletedProcess) (vs : list str) :
  Forall2 (λ c v, captured c = Some v) cs vs → Forall (Forall scalar) vs.
Proof.
  induction 1 as [| c v cs vs Hc _ IH]; constructor; [|exact IH].
  eapply BytesFacts.decode_utf8_scalar, Hc.
Qed.


(** The record of the five captured values reads back from its JSON
    text as the object of the five strings, whatever the limits of the
    interpreter that reads it. *)
Lemma record_reads_back (lim : Json.limits) (vs : list str) :
  length vs = 5%nat → Forall (Forall scalar) vs →
  Json.loads lim (Json.dumps (zip record_keys vs))
  = inr (Json.JObject (zip record_keys (Json.JString <$> vs))).
Proof.
  intros Hlen Hvs.
  do 5 (destruct vs as [| ? vs]; [discriminate Hlen|]).
  destruct vs; [|discriminate Hlen].
  repeat match goal with
         | H : Forall _ (_ :: _) |- _ => apply Forall_cons in H as [? H]
         end.
  rewrite JsonFacts.loads_dumps; [reflexivity|].
  unfold record_keys, settings_table.
  cbn [fmap list_fmap zip zip_with record_key].
  repeat (apply Forall_cons; split;
          [split; cbn [fst snd]; [apply py_scalar | assumption] |]).
  constructor.
Qed.

Lemma record_holds (vs : list str) :
  length vs = 5%nat →
  holds (Json.JObject (zip record_keys (Json.JString <$> vs)))
        settings_table vs.
Proof.
  intros Hlen.
  do 5 (destruct vs as [| ? vs]; [discriminate Hlen|]).
  destruct vs; [|discriminate Hlen].
  unfold holds, settings_table.
  repeat (constructor; [vm_compute; reflexivity|]).
  constructor.
Qed.

(** The exporter on a machine where the five read queries complete and
    decode: it returns with the record written, or dies at [open]. *)
Lemma exporter_run (w : World) cs st' vs :
  spawn_all spawn (get_argv <$> settings_table) (store w) = Some (cs, st') →
  Forall2 (λ c v, captured c = Some v) cs vs →
  exporter spawn w
  = match unwritable w !! "settings.json" with
    | Some e =>
      (inl e, after w st' (completed (get_argv <$> settings_table) cs))
    | None =>
      (inr (),
       written (after w st' (completed (get_argv <$> settings_table) cs))
               "settings.json" (Json.dumps (zip record_keys vs)))
    end.
Proof.
  intros Hall Hvs.
  pose proof (captured_length _ _ _ _ Hall Hvs) as Hlen.
  pose proof (export_loop_app spawn settings_table [] [] w _ _ _ Hall Hvs)
    as Hexp.
  rewrite app_nil_r, export_loop_nil, <- exporter_is_loop in Hexp.
  rewrite fill_table in Hexp by exact Hlen. exact Hexp.
Qed.

(** C1, as amended. Exporting and then importing, with nothing touching
    the store in between, leaves the store as it was, provided that
    [settings.json] can be opened for writing and that, in the store as it
    is, each of the five read queries completes without changing the
    store, what it prints decodes, and writing the captured text back
    completes without changing the store: then both scripts return, the
    store after the import is the store before the export, and so each of
    the five read queries answers what it answered before. *)
Theorem export_import_round_trip (w : World) :
  unwritable w !! "settings.json" = None →
  Forall (reads_back spawn (store w)) settings_table →
  ∃ w1 w2,
    exporter spawn w = (inr (), w1)
    ∧ importer spawn w1 = (inr (), w2)
    ∧ store w1 = store w
    ∧ store w2 = store w
    ∧ Forall (λ q, spawn (get_argv q) (store w2) = spawn (get_argv q) (store w))
             settings_table.
Proof.
  intros Hopen Hrb. unfold settings_table in Hrb.
  apply Forall_cons in Hrb as [(c1 & v1 & d1 & G1 & D1 & S1) Hrb].
  apply Forall_cons in Hrb as [(c2 & v2 & d2 & G2 & D2 & S2) Hrb].
  apply Forall_cons in Hrb as [(c3 & v3 & d3 & G3 & D3 & S3) Hrb].
  apply Forall_cons in Hrb as [(c4 & v4 & d4 & G4 & D4 & S4) Hrb].
  apply Forall_cons in Hrb as [(c5 & v5 & d5 & G5 & D5 & S5) _].
  assert (Hgets : spawn_all spawn (get_argv <$> settings_table) (store w)
                  = Some ([c1; c2; c3; c4; c5], store w)).
  { cbn [settings_table fmap list_fmap spawn_all].
    rewrite G1, G2, G3, G4, G5. reflexivity. }
  assert (Hvs : Forall2 (λ c v, captured c = Some v)
                        [c1; c2; c3; c4; c5] [v1; v2; v3; v4; v5])
    by (repeat (constructor; [assumption|]); constructor).
  pose proof (exporter_run w _ _ _ Hgets Hvs) as Hexp.
  rewrite Hopen in Hexp.
  eexists _, _. split; [exact Hexp|].
  split.
  { erewrite importer_run.
    - reflexivity.
    - cbn [files written]. apply lookup_insert_eq.
    - apply record_reads_back; [reflexivity|].
      eapply captured_scalar, Hvs.
    - apply (record_holds [v1; v2; v3; v4; v5]). reflexivity.
    - cbn [store after written settings_table zip_with spawn_all].
      rewrite S1, S2, S3, S4, S5. reflexivity. }
  split; [reflexivity|]. split; [reflexivity|].
  apply Forall_forall. reflexivity.
Qed.


(** C3, as amended. On a document that holds a string for each of the
    five keys, and on a machine where each of the five writes can be
    spawned, the importer returns after exactly five calls: the write of
    each key's stored string, verbatim as the last argument, in the order
    [gtk_theme], [icon_theme], [cursor_theme], [wallpaper],
    [color_scheme]. *)
Theorem importer_five_writes (w : World) text settings vs cs st' :
  files w !! "settings.json" = Some text →
  Json.loads (interpreter w) text = inr settings →
  holds settings settings_table vs →
  spawn_all spawn (zip_with set_argv settings_table vs) (store w)
  = Some (cs, st') →
  ∃ w',
    importer spawn w = (inr (), w')
    ∧ calls w' = calls w ++ completed (zip_with set_argv settings_table vs) cs
    ∧ (completed (zip_with set_argv settings_table vs) cs).*1
      = zip_with set_argv settings_table vs
    ∧ length (zip_with set_argv settings_table vs) = 5%nat.
Proof.
  intros Hfile Hload Hvs Hall.
  eexists. split; [eapply importer_run; eassumption|].
  split; [reflexivity|].
  pose proof (spawn_all_length _ _ _ _ Hall) as Hcs.
  pose proof (Forall2_length _ _ _ Hvs) as Hlen. cbn [length settings_table] in Hlen.
  do 5 (destruct vs as [| ? vs]; [discriminate Hlen|]).
  destruct vs; [|discriminate Hlen].
  cbn [settings_table zip_with length] in Hcs.
  do 5 (destruct cs as [| ? cs]; [discriminate Hcs|]).
  destruct cs; [|discriminate Hcs].
  split; reflexivity.
Qed.

(** C4, as amended. On a document that parses but lacks a key, the
    importer fails, and it writes neither that key nor any key after it:
    the files are as they were, and the writes it has issued are those of
    an initial run of the keys ahead of the missing one, in order, each
    with the string the document holds for its key.  The run has stopped
    at the next key, whose lookup failed or gave something that is no
    string ([TypeError]), or at the last write issued, which could not be
    spawned.  When every key ahead of the missing one holds a string and
    its write can be spawned, all of them have been written and the error
    is that of the missing key's lookup, [KeyError] for an object without
    the key and [TypeError] for a document that is no object. *)
Theorem importer_stops_at_missing_key
        (w : World) text settings (i : nat) q e :
  files w !! "settings.json" = Some text →
  Json.loads (interpreter w) text = inr settings →
  settings_table !! i = Some q →
  lookup_key settings (record_key q) = inl e →
  (e = KeyError (py (record_key q)) ∨ e = TypeError)
  ∧ ∃ e' w' vs,
      importer spawn w = (inl e', w')
      ∧ files w' = files w
      ∧ (calls w').*1 = (calls w).*1 ++ zip_with set_argv settings_table vs
      ∧ (length vs ≤ i)%nat
      ∧ holds settings (take (length vs) settings_table) vs
      ∧ ((∃ q', settings_table !! length vs = Some q'
                ∧ lookup_key settings (record_key q') = inl e')
         ∨ (∃ q' v, settings_table !! length vs = Some q'
                    ∧ lookup_key settings (record_key q') = inr v
                    ∧ is_string v = false ∧ e' = TypeError)
         ∨ (∃ argv, last (zip_with set_argv settings_table vs) = Some argv
                    ∧ last (calls w') = Some (argv, inl e')))
      ∧ ∀ vs0 cs st',
          holds settings (take i settings_table) vs0 →
          spawn_all spawn (zip_with set_argv (take i settings_table) vs0)
                    (store w)
          = Some (cs, st') →
          e' = e
          ∧ w' = after w st'
                   (completed (zip_with set_argv (take i settings_table) vs0) cs)
          ∧ length (completed (zip_with set_argv (take i settings_table) vs0) cs)
            = i.
Proof.
  intros Hfile Hload Hq Hmiss. split.
  { unfold lookup_key in Hmiss.
    destruct settings as [| | | | |pairs]; try (right; congruence).
    destruct (Json.getitem pairs (py (record_key q))); [discriminate|].
    left. congruence. }
  destruct (import_loop_missing spawn settings settings_table w i q e Hq Hmiss)
    as (e' & vs & He & Hc & Hn & Hvs & Hwhy).
  pose proof (import_loop_files spawn settings settings_table w) as Hf.
  pose proof (importer_unfold spawn w) as Hrun.
  rewrite Hfile, Hload in Hrun.
  destruct (import_loop spawn settings settings_table w) as [r w'] eqn:Hloop.
  cbn [fst snd] in He, Hc, Hf, Hwhy. subst r.
  exists e', w', vs.
  split; [exact Hrun|]. split; [exact Hf|]. split; [exact Hc|].
  split; [exact Hn|]. split; [exact Hvs|]. split; [exact Hwhy|].
  intros vs0 cs st' Hvs0 Hall.
  pose proof (lookup_lt_Some _ _ _ Hq) as Hi.
  rewrite <- (take_drop_middle settings_table i q Hq) in Hloop.
  erewrite import_loop_app in Hloop; [| exact Hvs0 | exact Hall].
  rewrite import_loop_cons, Hmiss in Hloop. injection Hloop as <- <-.
  split; [reflexivity|]. split; [reflexivity|].
  pose proof (spawn_all_length _ _ _ _ Hall) as Hcs.
  pose proof (Forall2_length _ _ _ Hvs0) as Hlen.
  unfold completed. rewrite length_zip_with, Hcs, length_zip_with.
  rewrite <- Hlen, length_take. lia.
Qed.

(** C5, as amended. (1) When all five read queries can be spawned, what
    they print is valid UTF-8 and [settings.json] can be opened for
    writing, the exit status plays no part: with a query that exited
    non-zero the exporter still returns and writes a document with all
    five keys, the key of that query holding whatever it printed,
    stripped.  (2) When a query cannot be spawned (the utility is not
    installed), the exporter dies of that error and no document is
    written.  (3) When [settings.json] cannot be opened for writing, the
    exporter dies of that error after the five queries, and no document is
    written. *)
Theorem exporter_exit_status_ignored (w : World) :
  (∀ cs st' vs (i : nat) c,
      spawn_all spawn (get_argv <$> settings_table) (store w) = Some (cs, st') →
      Forall2 (λ c v, captured c = Some v) cs vs →
      unwritable w !! "settings.json" = None →
      cs !! i = Some c → returncode c ≠ 0 →
      ∃ w',
        exporter spawn w = (inr (), w')
        ∧ files w'
          = <["settings.json" := Json.dumps (zip record_keys vs)]> (files w)
        ∧ (zip record_keys vs).*1 = record_keys
        ∧ vs !! i = captured c
        ∧ ∃ v, vs !! i = Some v ∧ recorded c v)
  ∧ (∀ (i : nat) q cs st1 vs e st2,
      settings_table !! i = Some q →
      spawn_all spawn (get_argv <$> take i settings_table) (store w)
      = Some (cs, st1) →
      Forall2 (λ c v, captured c = Some v) cs vs →
      spawn (get_argv q) st1 = (inl e, st2) →
      ∃ w', exporter spawn w = (inl e, w') ∧ files w' = files w)
  ∧ (∀ cs st' vs e,
      spawn_all spawn (get_argv <$> settings_table) (store w) = Some (cs, st') →
      Forall2 (λ c v, captured c = Some v) cs vs →
      unwritable w !! "settings.json" = Some e →
      ∃ w',
        exporter spawn w = (inl e, w')
        ∧ files w' = files w
        ∧ calls w' = calls w ++ completed (get_argv <$> settings_table) cs).
Proof.
  split; [|split].
  - intros cs st' vs i c Hall Hvs Hopen Hi _.
    pose proof (captured_length _ _ _ _ Hall Hvs) as Hlen.
    pose proof (exporter_run w _ _ _ Hall Hvs) as Hexp. rewrite Hopen in Hexp.
    eexists. split; [exact Hexp|]. cbn [files after written].
    split; [reflexivity|]. split; [apply zip_record_keys, Hlen|].
    destruct (Forall2_lookup_l _ _ _ _ _ Hvs Hi) as (v & Hv & Hc).
    split; [rewrite Hc; exact Hv|].
    exists v. split; [exact Hv | apply StripFacts.captured_recorded, Hc].
  - intros i q cs st1 vs e st2 Hq Hall Hvs Hraise.
    destruct (exporter spawn w) as [r w'] eqn:Hrun.
    pose proof Hrun as Hinv. rewrite exporter_is_loop in Hinv.
    apply export_loop_inv in Hinv.
    rewrite exporter_is_loop in Hrun.
    rewrite <- (take_drop_middle settings_table i q Hq) in Hrun.
    erewrite export_loop_app in Hrun; [| exact Hall | exact Hvs].
    rewrite export_loop_cons in Hrun. cbn [store after] in Hrun.
    rewrite Hraise in Hrun. injection Hrun as <- <-.
    eexists. split; reflexivity.
  - intros cs st' vs e Hall Hvs Hopen.
    pose proof (exporter_run w _ _ _ Hall Hvs) as Hexp. rewrite Hopen in Hexp.
    eexists. split; [exact Hexp|]. split; reflexivity.
Qed.

(** C6. With no [settings.json], or with one that [json.load] rejects,
    the importer dies at once: the world it leaves is the world it found
    (no call in the log, the store untouched). *)
Theorem importer_bad_file_aborts (w : World) :
  files w !! "settings.json" = None
  ∨ (∃ text e, files w !! "settings.json" = Some text
               ∧ Json.loads (interpreter w) text = inl e) →
  ∃ e, importer spawn w = (inl e, w).
Proof.
  intros [Hnone | (text & e & Hfile & Hbad)]; rewrite importer_unfold.
  - rewrite Hnone. eexists. reflexivity.
  - rewrite Hfile, Hbad. eexists. reflexivity.
Qed.

(** C7. What the code does with the terminal colour: whatever the store
    and the utility, the only calls the two scripts make are the reads
    and writes of the table, and the schema argument of the colour entry
    is the text of the source, dollar sign and parentheses included.  No
    shell sees it and no profile query is spawned. *)
Theorem color_scheme_schema_is_literal (w : World) :
  (∃ new,
      calls (exporter spawn w).2 = calls w ++ new
      ∧ Forall (λ call : Call, ∃ q, q ∈ settings_table ∧ call.1 = get_argv q) new)
  ∧ (∃ new,
      calls (importer spawn w).2 = calls w ++ new
      ∧ Forall (λ call : Call,
                  ∃ q v, q ∈ settings_table ∧ call.1 = set_argv q v) new)
  ∧ color_scheme_setting ∈ settings_table
  ∧ get_argv color_scheme_setting
    = [py "gsettings"; py "get"; py color_scheme_schema; py "foreground-color"]
  ∧ ∀ v, set_argv color_scheme_setting v
         = [py "gsettings"; py "set"; py color_scheme_schema;
            py "foreground-color"; v].
Proof.
  split; [|split; [|split; [|split]]].
  - rewrite exporter_is_loop. apply export_loop_calls.
  - rewrite importer_unfold.
    destruct (files w !! "settings.json") as [text |].
    2:{ exists []. rewrite app_nil_r. split; [reflexivity | constructor]. }
    destruct (Json.loads (interpreter w) text) as [e | settings].
    { exists []. rewrite app_nil_r. split; [reflexivity | constructor]. }
    apply import_loop_calls.
  - unfold settings_table. do 4 right. left.
  - reflexivity.
  - reflexivity.
Qed.

(** C8. After any run of the exporter the files are either as they were
    or differ in [settings.json] alone, which then holds a record whose
    keys are exactly the five, in order. *)
Theorem exporter_record_complete (w : World) :
  files (exporter spawn w).2 = files w
  ∨ ∃ d,
      d.*1 = record_keys
      ∧ files (exporter spawn w).2
        = <["settings.json" := Json.dumps d]> (files w).
Proof.
  destruct (exporter spawn w) as [r w'] eqn:Hrun.
  rewrite exporter_is_loop in Hrun. apply export_loop_inv in Hrun.
  destruct r as [e | []]; [left; exact Hrun|].
  destruct Hrun as (cs & st' & vs & Hall & Hvs & Hopen & ->).
  pose proof (captured_length _ _ _ _ Hall Hvs) as Hlen.
  right. exists (zip record_keys vs). cbn [snd files written after].
  rewrite fill_table by exact Hlen.
  split; [apply zip_record_keys, Hlen | reflexivity].
Qed.

(** C9, as amended. On a document that holds a string for each of the
    five keys, and on a machine where each of the five writes can be
    spawned, a write that exits non-zero stops nothing: the importer
    returns normally, the log holds the five writes and nothing else (none
    is undone, those after the failed one are spawned all the same), and
    the store is the one the five writes left, one after the other. *)
Theorem importer_continues_after_failure
        (w : World) text settings vs cs st' (i : nat) c :
  files w !! "settings.json" = Some text →
  Json.loads (interpreter w) text = inr settings →
  holds settings settings_table vs →
  spawn_all spawn (zip_with set_argv settings_table vs) (store w)
  = Some (cs, st') →
  cs !! i = Some c → returncode c ≠ 0 →
  ∃ w',
    importer spawn w = (inr (), w')
    ∧ store w' = st'
    ∧ calls w' = calls w ++ completed (zip_with set_argv settings_table vs) cs
    ∧ ∀ (j : nat) q v,
        settings_table !! j = Some q → vs !! j = Some v →
        ∃ c', (set_argv q v, inr c') ∈ calls w'.
Proof.
  intros Hfile Hload Hvs Hall _ _.
  eexists. split; [eapply importer_run; eassumption|].
  split; [reflexivity|]. split; [reflexivity|].
  intros j q v Hq Hv. cbn [calls after].
  pose proof (spawn_all_length _ _ _ _ Hall) as Hcs.
  pose proof (Forall2_length _ _ _ Hvs) as Hlen.
  rewrite length_zip_with, <- Hlen, Nat.min_id in Hcs.
  destruct (lookup_lt_is_Some_2 cs j) as [c' Hc'].
  { rewrite Hcs. eapply lookup_lt_Some, Hq. }
  exists c'. apply elem_of_app. right.
  apply list_elem_of_lookup. exists j. unfold completed.
  rewrite lookup_zip_with, lookup_zip_with, Hq. cbn. rewrite Hv. cbn.
  rewrite Hc'. reflexivity.
Qed.

(** C10. Every call the exporter makes is a [gsettings get]; and when
    the five read queries leave the store alone, so does the exporter. *)
Theorem exporter_only_reads (w : World) :
  (∃ new,
      calls (exporter spawn w).2 = calls w ++ new
      ∧ Forall (λ call : Call, is_get call.1 = true) new)
  ∧ (Forall (λ q, (spawn (get_argv q) (store w)).2 = store w) settings_table →
     store (exporter spawn w).2 = store w).
Proof.
  split.
  - rewrite exporter_is_loop.
    destruct (export_loop_calls spawn settings_table [] w) as (new & Hc & Hnew).
    exists new. split; [exact Hc|].
    eapply Forall_impl; [exact Hnew|].
    intros call (q & _ & ->). reflexivity.
  - intros Hpure. rewrite exporter_is_loop. apply export_loop_store, Hpure.
Qed.

End Claims.

(** ** The scripts at work

    Runs of the two scripts against the stand-in utility: one for each
    theorem above that has a premise, one for each way the specification
    departs from the code, and the scenario of the specification. *)

Lemma export_import_round_trip_witness :
  ∃ w1 w2,
    exporter fake_gsettings world0 = (inr (), w1)
    ∧ importer fake_gsettings w1 = (inr (), w2)
    ∧ store w1 = store world0
    ∧ store w2 = store world0
    ∧ Forall (λ q, fake_gsettings (get_argv q) (store w2)
                   = fake_gsettings (get_argv q) (store world0))
             settings_table.
Proof.
  apply (export_import_round_trip fake_gsettings world0).
  { vm_compute. reflexivity. }
  unfold settings_table.
  constructor.
  { exists (printed (py "'Kali-Dark'")), (py "'Kali-Dark'"), ok.
    repeat split; vm_compute; reflexivity. }
  constructor.
  { exists (printed (py "'Flat-Remix-Blue-Dark'")), (py "'Flat-Remix-Blue-Dark'"), ok.
    repeat split; vm_compute; reflexivity. }
  constructor.
  { exists (printed (py "'Adwaita'")), (py "'Adwaita'"), ok.
    repeat split; vm_compute; reflexivity. }
  constructor.
  { exists (printed (py "'file:///usr/share/backgrounds/kali/kali.png'")),
           (py "'file:///usr/share/backgrounds/kali/kali.png'"), ok.
    repeat split; vm_compute; reflexivity. }
  constructor.
  { exists (printed (py "'#D3D7CF'")), (py "'#D3D7CF'"), ok.
    repeat split; vm_compute; reflexivity. }
  constructor.
Defined.

(** C1 as the specification has it does not hold.  With a utility whose
    read of the cursor theme fails (exit status 1, nothing printed) the
    exporter records the empty string for it, the store being left as it
    was; the importer then writes the empty string, and the cursor theme
    of the store is no longer ['Adwaita']. *)
Lemma round_trip_loses_failed_read :
  (exporter flaky_gsettings world0).1 = inr ()
  ∧ store (exporter flaky_gsettings world0).2 = store world0
  ∧ files (exporter flaky_gsettings world0).2 !! "settings.json"
    = Some (Json.dumps
              (zip record_keys
                   [py "'Kali-Dark'"; py "'Flat-Remix-Blue-Dark'"; [];
                    py "'file:///usr/share/backgrounds/kali/kali.png'";
                    py "'#D3D7CF'"]))
  ∧ (importer flaky_gsettings (exporter flaky_gsettings world0).2).1 = inr ()
  ∧ fake_lookup (store world0)
                (py "org.gnome.desktop.interface", py "cursor-theme")
    = Some (py "'Adwaita'")
  ∧ fake_lookup
      (store (importer flaky_gsettings (exporter flaky_gsettings world0).2).2)
      (py "org.gnome.desktop.interface", py "cursor-theme")
    = Some [].
Proof. repeat split; vm_compute; reflexivity. Qed.


(** The file of that run, character for character: the five values as
    the utility printed them, quotes included and line feed gone. *)
Example exported_file :
  files (exporter fake_gsettings stale_world).2 !! "settings.json"
  = Some exported_text
  ∧ Json.dumps exported_record = exported_text
  ∧ (calls (exporter fake_gsettings stale_world).2).*2
    = inr <$> (printed <$> exported_record.*2)
  ∧ printed (py "'Adwaita'")
    = {| returncode := 0; stdout := pyb "'Adwaita'" ++ [x0a] |}.
Proof. repeat split; vm_compute; reflexivity. Qed.

Lemma importer_five_writes_witness :
  ∃ w',
    importer fake_gsettings scenario_world = (inr (), w')
    ∧ calls w'
      = calls scenario_world
        ++ completed (zip_with set_argv settings_table saved_record.*2)
                     (replicate 5 ok)
    ∧ (completed (zip_with set_argv settings_table saved_record.*2)
                 (replicate 5 ok)).*1
      = zip_with set_argv settings_table saved_record.*2
    ∧ length (zip_with set_argv settings_table saved_record.*2) = 5%nat.
Proof.
  apply (importer_five_writes fake_gsettings scenario_world
           (Json.dumps saved_record)
           (Json.JObject (jstring_pair <$> saved_record))
           saved_record.*2 (replicate 5 ok)
           (store (importer fake_gsettings scenario_world).2)).
  - vm_compute. reflexivity.
  - vm_compute. reflexivity.
  - unfold holds, settings_table.
    repeat (constructor; [vm_compute; reflexivity|]). constructor.
  - vm_compute. reflexivity.
Defined.

(** C3 as the specification has it does not hold.  A document with all
    five keys whose icon theme is the number 5 gets one write, that of
    [gtk_theme], and then [TypeError]; and on a machine without the
    utility the document of the scenario gets no write at all, the first
    [subprocess.run] raising [FileNotFoundError]. *)
Lemma importer_fewer_than_five_writes :
  Json.loads usual_limits (five_keys (py "5") (quoted "file:///wall.png"))
  = inr (Json.JObject
            [ (py "gtk_theme", Json.JString (py "Adwaita"));
              (py "icon_theme", Json.JNumber (py "5"));
              (py "cursor_theme", Json.JString (py "Adwaita"));
              (py "wallpaper", Json.JString (py "file:///wall.png"));
              (py "color_scheme", Json.JString (py "#FFFFFF")) ])
  ∧ (importer fake_gsettings icon_number_world).1 = inl TypeError
  ∧ calls (importer fake_gsettings icon_number_world).2
    = [([py "gsettings"; py "set"; py "org.gnome.desktop.interface";
         py "gtk-theme"; py "Adwaita"], inr ok)]
  ∧ Json.loads usual_limits (Json.dumps saved_record)
    = inr (Json.JObject (jstring_pair <$> saved_record))
  ∧ (importer no_gsettings no_tool_saved_world).1 = inl FileNotFoundError
  ∧ calls (importer no_gsettings no_tool_saved_world).2
    = [([py "gsettings"; py "set"; py "org.gnome.desktop.interface";
         py "gtk-theme"; py "Adwaita"], inl FileNotFoundError)].
Proof. repeat split; vm_compute; reflexivity. Qed.

Lemma importer_stops_at_missing_key_witness :
  (KeyError (py "icon_theme") = KeyError (py "icon_theme")
   ∨ KeyError (py "icon_theme") = TypeError)
  ∧ ∃ e' w' vs,
      importer fake_gsettings partial_world = (inl e', w')
      ∧ files w' = files partial_world
      ∧ (calls w').*1
        = (calls partial_world).*1 ++ zip_with set_argv settings_table vs
      ∧ (length vs ≤ 1)%nat
      ∧ holds (Json.JObject [(py "gtk_theme", Json.JString (py "'Adwaita'"))])
              (take (length vs) settings_table) vs
      ∧ ((∃ q', settings_table !! length vs = Some q'
                ∧ lookup_key
                    (Json.JObject [(py "gtk_theme", Json.JString (py "'Adwaita'"))])
                    (record_key q') = inl e')
         ∨ (∃ q' v, settings_table !! length vs = Some q'
                    ∧ lookup_key
                        (Json.JObject
                           [(py "gtk_theme", Json.JString (py "'Adwaita'"))])
                        (record_key q') = inr v
                    ∧ is_string v = false ∧ e' = TypeError)
         ∨ (∃ argv, last (zip_with set_argv settings_table vs) = Some argv
                    ∧ last (calls w') = Some (argv, inl e')))
      ∧ ∀ vs0 cs st',
          holds (Json.JObject [(py "gtk_theme", Json.JString (py "'Adwaita'"))])
                (take 1 settings_table) vs0 →
          spawn_all fake_gsettings
                    (zip_with set_argv (take 1 settings_table) vs0)
                    (store partial_world)
          = Some (cs, st') →
          e' = KeyError (py "icon_theme")
          ∧ w' = after partial_world st'
                   (completed (zip_with set_argv (take 1 settings_table) vs0) cs)
          ∧ length (completed (zip_with set_argv (take 1 settings_table) vs0) cs)
            = 1%nat.
Proof.
  apply (importer_stops_at_missing_key fake_gsettings partial_world
           (Json.dumps [(py "gtk_theme", py "'Adwaita'")])
           (Json.JObject [(py "gtk_theme", Json.JString (py "'Adwaita'"))])
           1
           {| record_key := "icon_theme";
              schema := "org.gnome.desktop.interface"; key := "icon-theme" |}
           (KeyError (py "icon_theme"))).
  - vm_compute. reflexivity.
  - vm_compute. reflexivity.
  - reflexivity.
  - vm_compute. reflexivity.
Defined.

Lemma exporter_exit_status_ignored_witness :
  (∃ w',
      exporter fake_gsettings bare_world = (inr (), w')
      ∧ files w'
        = <["settings.json" :=
              Json.dumps (zip record_keys
                            [py "'Kali-Dark'"; py "'Flat-Remix-Blue-Dark'"; [];
                             py "'file:///usr/share/backgrounds/kali/kali.png'";
                             py "'#D3D7CF'"])]> (files bare_world)
      ∧ (zip record_keys
           [py "'Kali-Dark'"; py "'Flat-Remix-Blue-Dark'"; [];
            py "'file:///usr/share/backgrounds/kali/kali.png'";
            py "'#D3D7CF'"]).*1 = record_keys
      ∧ [py "'Kali-Dark'"; py "'Flat-Remix-Blue-Dark'"; [];
         py "'file:///usr/share/backgrounds/kali/kali.png'";
         py "'#D3D7CF'"] !! 2%nat = captured failed
      ∧ ∃ v,
          [py "'Kali-Dark'"; py "'Flat-Remix-Blue-Dark'"; [];
           py "'file:///usr/share/backgrounds/kali/kali.png'";
           py "'#D3D7CF'"] !! 2%nat = Some v
          ∧ recorded failed v)
  ∧ (∃ w',
      exporter no_gsettings no_tool_world = (inl FileNotFoundError, w')
      ∧ files w' = files no_tool_world)
  ∧ (∃ w',
      exporter fake_gsettings readonly_world = (inl (OSError 13), w')
      ∧ files w' = files readonly_world
      ∧ calls w'
        = calls readonly_world
          ++ completed (get_argv <$> settings_table)
                       (printed <$> exported_record.*2)).
Proof.
  split; [|split].
  - apply (proj1 (exporter_exit_status_ignored fake_gsettings bare_world)
                 [ {| returncode := 0; stdout := pyb "'Kali-Dark'" ++ [x0a] |};
                   {| returncode := 0;
                      stdout := pyb "'Flat-Remix-Blue-Dark'" ++ [x0a] |};
                   failed;
                   {| returncode := 0;
                      stdout := pyb "'file:///usr/share/backgrounds/kali/kali.png'"
                                ++ [x0a] |};
                   {| returncode := 0; stdout := pyb "'#D3D7CF'" ++ [x0a] |} ]
                 bare_desktop).
    + vm_compute. reflexivity.
    + repeat (constructor; [vm_compute; reflexivity|]). constructor.
    + vm_compute. reflexivity.
    + reflexivity.
    + cbn. lia.
  - apply (proj1 (proj2 (exporter_exit_status_ignored no_gsettings no_tool_world))
                 0%nat
                 {| record_key := "gtk_theme";
                    schema := "org.gnome.desktop.interface"; key := "gtk-theme" |}
                 [] () [] FileNotFoundError ()).
    + reflexivity.
    + reflexivity.
    + constructor.
    + reflexivity.
  - apply (proj2 (proj2 (exporter_exit_status_ignored fake_gsettings readonly_world))
                 (printed <$> exported_record.*2) desktop exported_record.*2).
    + vm_compute. reflexivity.
    + repeat (constructor; [vm_compute; reflexivity|]). constructor.
    + vm_compute. reflexivity.
Defined.

Lemma importer_bad_file_aborts_witness :
  (∃ e, importer fake_gsettings world0 = (inl e, world0))
  ∧ (∃ e, importer fake_gsettings stale_world = (inl e, stale_world)).
Proof.
  split.
  - apply (importer_bad_file_aborts fake_gsettings world0).
    left. reflexivity.
  - apply (importer_bad_file_aborts fake_gsettings stale_world).
    right. exists (py "gtk_theme=Adwaita"), JSONDecodeError.
    split; vm_compute; reflexivity.
Defined.

Lemma importer_continues_after_failure_witness :
  ∃ w',
    importer fake_gsettings bare_world = (inr (), w')
    ∧ store w' = store (importer fake_gsettings bare_world).2
    ∧ calls w'
      = calls bare_world
        ++ completed (zip_with set_argv settings_table saved_record.*2)
                     [ok; ok; failed; ok; ok]
    ∧ ∀ (j : nat) q v,
        settings_table !! j = Some q → saved_record.*2 !! j = Some v →
        ∃ c', (set_argv q v, inr c') ∈ calls w'.
Proof.
  apply (importer_continues_after_failure fake_gsettings bare_world
           (Json.dumps saved_record)
           (Json.JObject (jstring_pair <$> saved_record))
           saved_record.*2 [ok; ok; failed; ok; ok]
           (store (importer fake_gsettings bare_world).2)
           2 failed).
  - vm_compute. reflexivity.
  - vm_compute. reflexivity.
  - unfold holds, settings_table.
    repeat (constructor; [vm_compute; reflexivity|]). constructor.
  - vm_compute. reflexivity.
  - reflexivity.
  - cbn. lia.
Defined.

(** C9 as the specification has it does not hold.  On a desktop without
    a cursor theme, a document with all five keys whose wallpaper is the
    number 7 gets three writes, of which the third exits with status 1;
    the importer then dies of [TypeError] at the wallpaper, and the write
    of [color_scheme] is never attempted. *)
Lemma importer_aborts_after_failed_write :
  Json.loads usual_limits (five_keys (quoted "Papirus") (py "7"))
  = inr (Json.JObject
            [ (py "gtk_theme", Json.JString (py "Adwaita"));
              (py "icon_theme", Json.JString (py "Papirus"));
              (py "cursor_theme", Json.JString (py "Adwaita"));
              (py "wallpaper", Json.JNumber (py "7"));
              (py "color_scheme", Json.JString (py "#FFFFFF")) ])
  ∧ (importer fake_gsettings wallpaper_number_world).1 = inl TypeError
  ∧ calls (importer fake_gsettings wallpaper_number_world).2
    = [ ([py "gsettings"; py "set"; py "org.gnome.desktop.interface";
          py "gtk-theme"; py "Adwaita"], inr ok);
        ([py "gsettings"; py "set"; py "org.gnome.desktop.interface";
          py "icon-theme"; py "Papirus"], inr ok);
        ([py "gsettings"; py "set"; py "org.gnome.desktop.interface";
          py "cursor-theme"; py "Adwaita"], inr failed) ]
  ∧ returncode failed = 1.
Proof. repeat split; vm_compute; reflexivity. Qed.

Lemma exporter_only_reads_witness :
  store (exporter fake_gsettings world0).2 = store world0.
Proof.
  apply (proj2 (exporter_only_reads fake_gsettings world0)).
  unfold settings_table.
  repeat (constructor; [vm_compute; reflexivity|]). constructor.
Defined.

(** C4 as the specification has it does not hold.  The document
    [{gtk_theme: 'Adwaita'}] is valid JSON and lacks four keys; the
    importer dies of the second lookup, after the write of [gtk_theme] has
    been issued and has changed the store. *)
Lemma importer_writes_before_missing_key :
  files partial_world !! "settings.json"
  = Some (Json.dumps [(py "gtk_theme", py "'Adwaita'")])
  ∧ Json.loads usual_limits (Json.dumps [(py "gtk_theme", py "'Adwaita'")])
    = inr (Json.JObject [(py "gtk_theme", Json.JString (py "'Adwaita'"))])
  ∧ lookup_key (Json.JObject [(py "gtk_theme", Json.JString (py "'Adwaita'"))])
               "icon_theme"
    = inl (KeyError (py "icon_theme"))
  ∧ (importer fake_gsettings partial_world).1 = inl (KeyError (py "icon_theme"))
  ∧ calls (importer fake_gsettings partial_world).2
    = [([py "gsettings"; py "set"; py "org.gnome.desktop.interface";
         py "gtk-theme"; py "'Adwaita'"], inr ok)]
  ∧ fake_lookup (store partial_world)
                (py "org.gnome.desktop.interface", py "gtk-theme")
    = Some (py "'Kali-Dark'")
  ∧ fake_lookup (store (importer fake_gsettings partial_world).2)
                (py "org.gnome.desktop.interface", py "gtk-theme")
    = Some (py "'Adwaita'").
Proof. repeat split; vm_compute; reflexivity. Qed.

(** Two documents that lack keys and stop ahead of the first missing
    one: [{gtk_theme: 1}] gets no write, the value of the one key it has
    being no string; [{gtk_theme: Adwaita, icon_theme: 5}] gets the write
    of [gtk_theme] and dies of [TypeError] at [icon_theme], which it
    has. *)
Example importer_stops_ahead_of_missing_key :
  importer fake_gsettings lone_number_world = (inl TypeError, lone_number_world)
  ∧ (importer fake_gsettings number_world).1 = inl TypeError
  ∧ calls (importer fake_gsettings number_world).2
    = [([py "gsettings"; py "set"; py "org.gnome.desktop.interface";
         py "gtk-theme"; py "Adwaita"], inr ok)].
Proof. repeat split; vm_compute; reflexivity. Qed.

(** At the limits of the interpreter [json.load] raises, and the importer
    dies before any write, whatever the five members hold. *)
Example importer_at_the_limits :
  importer fake_gsettings long_integer_world = (inl ValueError, long_integer_world)
  ∧ importer fake_gsettings deep_world = (inl RecursionError, deep_world)
  ∧ Json.loads {| Json.max_str_digits := 0; Json.spare_depth := 2000 |}
               (removelast (Json.dumps saved_record)
                ++ py ", " ++ member "font_size" (replicate 4301 49) ++ py "}")
    = inr (Json.JObject
             ((jstring_pair <$> saved_record)
              ++ [(py "font_size", Json.JNumber (replicate 4301 49))])).
Proof. repeat split; vm_compute; reflexivity. Qed.

(** C5 as the specification has it does not hold.  Where the utility is
    not installed, the first [subprocess.run] raises, the exporter dies of
    it, and no [settings.json] appears. *)
Lemma exporter_dies_without_utility :
  (exporter no_gsettings no_tool_world).1 = inl FileNotFoundError
  ∧ files (exporter no_gsettings no_tool_world).2 !! "settings.json" = None
  ∧ calls (exporter no_gsettings no_tool_world).2
    = [([py "gsettings"; py "get"; py "org.gnome.desktop.interface";
         py "gtk-theme"], inl FileNotFoundError)].
Proof. repeat split; vm_compute; reflexivity. Qed.

(** The scenario of the specification: five writes, with the five stored
    values, in the order of the table. *)
Example scenario_five_writes :
  (calls (importer fake_gsettings scenario_world).2).*1
  = [ [py "gsettings"; py "set"; py "org.gnome.desktop.interface";
       py "gtk-theme"; py "Adwaita"];
      [py "gsettings"; py "set"; py "org.gnome.desktop.interface";
       py "icon-theme"; py "Papirus"];
      [py "gsettings"; py "set"; py "org.gnome.desktop.interface";
       py "cursor-theme"; py "Adwaita"];
      [py "gsettings"; py "set"; py "org.gnome.desktop.background";
       py "picture-uri"; py "file:///wall.png"];
      [py "gsettings"; py "set"; py color_scheme_schema;
       py "foreground-color"; py "#FFFFFF"] ].
Proof. vm_compute. reflexivity. Qed.

(** The terminal colour on a desktop whose default profile is
    [b1dcc9dd-...]: the exporter asks for the colour under the unexpanded
    path, never asks for the profile list, and so misses the colour of the
    profile; the importer writes to the unexpanded path and the colour of
    the profile stays what it was. *)
Example color_scheme_misses_the_profile :
  (calls (exporter fake_gsettings terminal_world).2).*1 !! 4%nat
  = Some [py "gsettings"; py "get"; py color_scheme_schema; py "foreground-color"]
  ∧ length (calls (exporter fake_gsettings terminal_world).2) = 5%nat
  ∧ py color_scheme_schema ≠ py default_profile_schema
  ∧ files (exporter fake_gsettings terminal_world).2 !! "settings.json"
    = Some (Json.dumps
              (zip record_keys
                   [py "'Kali-Dark'"; py "'Flat-Remix-Blue-Dark'"; py "'Adwaita'";
                    py "'file:///usr/share/backgrounds/kali/kali.png'"; []]))
  ∧ fake_lookup (store terminal_world) (py default_profile_schema, py "foreground-color")
    = Some (py "'#00FF00'")
  ∧ fake_lookup (store (importer fake_gsettings terminal_world).2)
                (py default_profile_schema, py "foreground-color")
    = Some (py "'#00FF00'").
Proof.
  repeat split; try (vm_compute; reflexivity).
  intros H. vm_compute in H. discriminate H.
Qed.

(** A few documents through the decoder. *)
Example loads_nested :
  Json.loads usual_limits (py " [[1, -2.5e+3], [], [[true, null]], NaN] ")
  = inr (Json.JArray
           [ Json.JArray [Json.JNumber (py "1"); Json.JNumber (py "-2.5e+3")];
             Json.JArray [];
             Json.JArray [Json.JArray [Json.JBool true; Json.JNull]];
             Json.JNumber (py "NaN") ]).
Proof. vm_compute. reflexivity. Qed.

Example loads_escapes :
  Json.loads usual_limits
             [34; 92; 117; 48; 48; 101; 57; 92; 110; 92; 117; 100; 56; 51;
              100; 92; 117; 100; 101; 48; 48; 34]
  = inr (Json.JString [233; 10; 128512]).
Proof. vm_compute. reflexivity. Qed.

Example loads_rejects :
  Json.loads usual_limits (py "{'a': 1}") = inl JSONDecodeError
  ∧ Json.loads usual_limits (py "[1, 2,]") = inl JSONDecodeError
  ∧ Json.loads usual_limits (py "01") = inl JSONDecodeError
  ∧ Json.loads usual_limits [] = inl JSONDecodeError.
Proof. repeat split; vm_compute; reflexivity. Qed.

(** The limits of the interpreter: an integer of 4300 digits is read and
    one of 4301 is [ValueError], while a number with a fraction may be
    longer; arrays nested 991 deep are read and arrays nested 992 deep are
    [RecursionError].  The error that comes first in the text is the one
    raised. *)
Example loads_limits :
  Json.loads usual_limits (replicate 4300 49)
  = inr (Json.JNumber (replicate 4300 49))
  ∧ Json.loads usual_limits (replicate 4301 49) = inl ValueError
  ∧ Json.loads usual_limits (45 :: replicate 4300 49)
    = inr (Json.JNumber (45 :: replicate 4300 49))
  ∧ Json.loads usual_limits (replicate 4301 49 ++ py ".5")
    = inr (Json.JNumber (replicate 4301 49 ++ py ".5"))
  ∧ Json.loads usual_limits (replicate 991 91 ++ replicate 991 93)
    = inr (Nat.iter 990 (λ v, Json.JArray [v]) (Json.JArray []))
  ∧ Json.loads usual_limits (replicate 992 91 ++ replicate 992 93)
    = inl RecursionError
  ∧ Json.loads usual_limits (py "[" ++ replicate 4301 49 ++ py ", }")
    = inl ValueError
  ∧ Json.loads usual_limits (py "[}, " ++ replicate 4301 49 ++ py "]")
    = inl JSONDecodeError.
Proof. repeat split; vm_compute; reflexivity. Qed.

Example strip_then_decode :
  Bytes.decode_utf8 (Bytes.strip (pyb " 'Adwaita' " ++ [x0d; x0a]))
  = Some (py "'Adwaita'")
  ∧ Bytes.decode_utf8 [xc3; xa9; xe2; x82; xac; xf0; x9f; x98; x80]
    = Some [233; 8364; 128512]
  ∧ Bytes.decode_utf8 [xed; xa0; x80] = None
  ∧ Bytes.decode_utf8 [xc0; x80] = None.
Proof. repeat split; vm_compute; reflexivity. Qed.

(** ** More about the exporter *)


Ltac small_printable :=
  repeat (apply List.Forall_cons; [unfold printable; lia|]); apply List.Forall_nil.

Lemma hex_digit_printable (x : Z) : printable (Json.hex_digit (Z.land x 15)).
Proof.
  change 15 with (Z.ones 4). rewrite land_ones_mod by lia.
  pose proof (Z.mod_pos_bound x (2 ^ 4) ltac:(lia)) as Hb.
  change (2 ^ 4) with 16 in *.
  unfold Json.hex_digit, printable.
  destruct (Z.ltb_spec (x mod 16) 10); lia.
Qed.

Lemma u_escape_printable (n : Z) : Forall printable (Json.u_escape n).
Proof.
  unfold Json.u_escape.
  repeat (constructor; [first [apply hex_digit_printable | unfold printable; lia]|]).
  apply Forall_nil_2.
Qed.

Lemma escape_char_printable (c : Z) : Forall printable (Json.escape_char c).
Proof.
  assert (Hpair : ∀ a b, printable a → printable b → Forall printable [a; b])
    by (intros; constructor; [assumption | constructor; [assumption | constructor]]).
  unfold Json.escape_char.
  destruct (c =? 92); [apply Hpair; unfold printable; lia|].
  destruct (c =? 34); [apply Hpair; unfold printable; lia|].
  destruct ((32 <=? c) && (c <=? 126)) eqn:Hp.
  { BytesFacts.tests_to_props. constructor; [split; assumption | constructor]. }
  destruct (c =? 8); [apply Hpair; unfold printable; lia|].
  destruct (c =? 12); [apply Hpair; unfold printable; lia|].
  destruct (c =? 10); [apply Hpair; unfold printable; lia|].
  destruct (c =? 13); [apply Hpair; unfold printable; lia|].
  destruct (c =? 9); [apply Hpair; unfold printable; lia|].
  destruct (c <? 65536); [apply u_escape_printable|].
  apply Forall_app. split; apply u_escape_printable.
Qed.

Lemma encode_basestring_ascii_printable (s : str) :
  Forall printable (Json.encode_basestring_ascii s).
Proof.
  unfold Json.encode_basestring_ascii.
  apply Forall_app. split; [small_printable|].
  apply Forall_app. split; [|small_printable].
  induction s as [| c s IH]; [constructor|].
  cbn [flat_map]. apply Forall_app. split; [apply escape_char_printable | exact IH].
Qed.

Lemma dumps_item_printable (kv : str * str) :
  Forall printable (Json.dumps_item kv).
Proof.
  unfold Json.dumps_item.
  apply Forall_app. split; [apply encode_basestring_ascii_printable|].
  apply Forall_app. split; [small_printable|].
  apply encode_basestring_ascii_printable.
Qed.

Lemma dumps_items_printable (d : list (str * str)) :
  Forall printable (Json.dumps_items d).
Proof.
  induction d as [| kv d IH]; [constructor|].
  cbn [Json.dumps_items]. destruct d as [| kv' d']; [apply dumps_item_printable|].
  apply Forall_app. split; [apply dumps_item_printable|].
  apply Forall_app. split; [small_printable | exact IH].
Qed.

(** Whatever the strings, [json.dumps] prints printable ASCII only. *)
Lemma dumps_printable (d : list (str * str)) : Forall printable (Json.dumps d).
Proof.
  unfold Json.dumps. destruct d as [| kv d].
  - small_printable.
  - apply Forall_app. split; [small_printable|].
    apply Forall_app. split; [apply dumps_items_printable|].
    small_printable.
Qed.

Section ExporterMore.

Context {Store : Type}.
Variable spawn : list str → Store → (exn + CompletedProcess) * Store.

Local Abbreviation World := (World (Store := Store)).

Lemma captured_all_trimmed (cs : list CompletedProcess) (vs : list str) :
  Forall2 (λ c v, captured c = Some v) cs vs → Forall trimmed vs.
Proof.
  induction 1 as [| c v cs vs Hc _ IH]; constructor; [|exact IH].
  eapply StripFacts.captured_trimmed, Hc.
Qed.

(** The read queries the exporter has spawned so far are a prefix of the
    table's, whatever becomes of the run. *)
Lemma export_loop_prefix (qs : list Setting) :
  ∀ (d : list (str * str)) (w : World),
    ∃ n : nat,
      (n ≤ length qs)%nat
      ∧ (calls (export_loop spawn qs d w).2).*1
        = (calls w).*1 ++ (get_argv <$> take n qs).
Proof.
  induction qs as [| q qs IH]; intros d w.
  - exists 0%nat. rewrite export_loop_nil.
    destruct (unwritable w !! "settings.json"); cbn; rewrite app_nil_r;
      (split; [lia | reflexivity]).
  - rewrite export_loop_cons.
    destruct (spawn (get_argv q) (store w)) as [[e | c] st].
    { exists 1%nat. cbn [length snd calls after take]. rewrite fmap_app. cbn.
      split; [lia | reflexivity]. }
    cbv zeta. destruct (captured c) as [v |].
    2:{ exists 1%nat. cbn [length snd calls after take]. rewrite fmap_app. cbn.
        split; [lia | reflexivity]. }
    edestruct IH as (n & Hn & ->). exists (S n). cbn [calls after length take].
    rewrite fmap_app, <- app_assoc. cbn. split; [lia | reflexivity].
Qed.

(** The exporter looks at the store, and at nothing else until it opens
    [settings.json]. *)
Lemma export_loop_frame (qs : list Setting) :
  ∀ (d : list (str * str)) (w w' : World),
    store w = store w' →
    unwritable w !! "settings.json" = unwritable w' !! "settings.json" →
    (export_loop spawn qs d w).1 = (export_loop spawn qs d w').1
    ∧ store (export_loop spawn qs d w).2 = store (export_loop spawn qs d w').2
    ∧ (∃ new, calls (export_loop spawn qs d w).2 = calls w ++ new
              ∧ calls (export_loop spawn qs d w').2 = calls w' ++ new)
    ∧ ∃ upd,
        files (export_loop spawn qs d w).2 = write_file upd (files w)
        ∧ files (export_loop spawn qs d w').2 = write_file upd (files w').
Proof.
  induction qs as [| q qs IH]; intros d w w' Hst Hopen.
  - rewrite !export_loop_nil, <- Hopen.
    destruct (unwritable w !! "settings.json"); cbn;
      (repeat split; [exact Hst | |]).
    + exists []. rewrite !app_nil_r. split; reflexivity.
    + exists None. split; reflexivity.
    + exists []. rewrite !app_nil_r. split; reflexivity.
    + exists (Some (Json.dumps d)). split; reflexivity.
  - rewrite !export_loop_cons, <- Hst.
    destruct (spawn (get_argv q) (store w)) as [[e | c] st].
    { cbn. repeat split.
      - eexists [_]. split; reflexivity.
      - exists None. split; reflexivity. }
    cbv zeta. destruct (captured c) as [v |].
    2:{ cbn. repeat split.
        - eexists [_]. split; reflexivity.
        - exists None. split; reflexivity. }
    match goal with
    | |- context [export_loop spawn qs ?d1 ?w1] =>
      match goal with
      | |- context [export_loop spawn qs d1 ?w2] =>
        lazymatch w2 with
        | w1 => fail
        | _ =>
          destruct (IH d1 w1 w2 eq_refl Hopen)
            as (Hr & Hs & (new & Hc1 & Hc2) & (upd & Hf1 & Hf2))
        end
      end
    end.
    split; [exact Hr|]. split; [exact Hs|]. split.
    + exists ((get_argv q, inr c) :: new). rewrite Hc1, Hc2. cbn [calls after].
      rewrite <- !app_assoc. split; reflexivity.
    + exists upd. rewrite Hf1, Hf2. split; reflexivity.
Qed.

(** X1. Whenever the exporter returns, none of the five values it wrote
    starts or ends with ASCII white space (the line feed the utility prints
    after a value is gone). *)
Theorem exporter_values_trimmed (w w' : World) :
  exporter spawn w = (inr (), w') →
  ∃ vs,
    length vs = 5%nat
    ∧ files w' = <["settings.json" := Json.dumps (zip record_keys vs)]> (files w)
    ∧ Forall trimmed vs.
Proof.
  intros Hrun. rewrite exporter_is_loop in Hrun.
  apply export_loop_inv in Hrun as (cs & st' & vs & Hall & Hvs & Hopen & ->).
  pose proof (captured_length _ _ _ _ _ Hall Hvs) as Hlen.
  exists vs. cbn [files written after]. rewrite fill_table by exact Hlen.
  repeat split; [exact Hlen|]. eapply captured_all_trimmed, Hvs.
Qed.

(** X2. The exporter stops at the first read query that fails, be it that
    the spawn raises or that the output is not valid UTF-8
    ([UnicodeDecodeError]): it dies of that error, the log ends with
    that query (no later query is spawned), and the files are as they
    were. *)
Theorem exporter_stops_at_failed_query
        (w : World) (i : nat) q cs st1 vs r st2 e :
  settings_table !! i = Some q →
  spawn_all spawn (get_argv <$> take i settings_table) (store w) = Some (cs, st1) →
  Forall2 (λ c v, captured c = Some v) cs vs →
  spawn (get_argv q) st1 = (r, st2) →
  failure r = Some e →
  exporter spawn w
  = (inl e,
     after w st2 (completed (get_argv <$> take i settings_table) cs
                  ++ [(get_argv q, r)])).
Proof.
  intros Hq Hall Hvs Hr He.
  rewrite exporter_is_loop.
  rewrite <- (take_drop_middle settings_table i q Hq) at 1.
  erewrite export_loop_app; [| exact Hall | exact Hvs].
  rewrite export_loop_cons. cbn [store after]. rewrite Hr.
  unfold failure in He. destruct r as [e' | c].
  - injection He as <-. unfold after. cbn. rewrite <- app_assoc. reflexivity.
  - cbv zeta. unfold captured.
    destruct (Bytes.decode_utf8 (Bytes.strip (stdout c))); [discriminate|].
    injection He as <-. unfold after. cbn. rewrite <- app_assoc. reflexivity.
Qed.

(** X3. A read query that prints nothing, or white space only, is recorded
    as the empty string: the run goes on and the document still has the
    key. *)
Theorem exporter_blank_output (w w' : World) :
  exporter spawn w = (inr (), w') →
  ∃ cs vs,
    calls w' = calls w ++ completed (get_argv <$> settings_table) cs
    ∧ files w' = <["settings.json" := Json.dumps (zip record_keys vs)]> (files w)
    ∧ (zip record_keys vs).*1 = record_keys
    ∧ ∀ (i : nat) c,
        cs !! i = Some c →
        Forall (λ b, Bytes.isspace b = true) (stdout c) →
        vs !! i = Some [].
Proof.
  intros Hrun. rewrite exporter_is_loop in Hrun.
  apply export_loop_inv in Hrun as (cs & st' & vs & Hall & Hvs & Hopen & ->).
  pose proof (captured_length _ _ _ _ _ Hall Hvs) as Hlen.
  exists cs, vs. cbn [files calls written after].
  rewrite fill_table by exact Hlen.
  repeat split; [apply zip_record_keys, Hlen|].
  intros i c Hc Hblank.
  destruct (Forall2_lookup_l _ _ _ _ _ Hvs Hc) as (v & Hv & Hcap).
  unfold captured in Hcap. rewrite StripFacts.strip_blank in Hcap by exact Hblank.
  cbn in Hcap. injection Hcap as <-. exact Hv.
Qed.

(** X4. Whenever the exporter returns, [settings.json] holds printable
    ASCII and nothing else, whatever characters the values have. *)
Theorem exporter_file_is_ascii (w w' : World) :
  exporter spawn w = (inr (), w') →
  ∃ text, files w' !! "settings.json" = Some text ∧ Forall printable text.
Proof.
  intros Hrun. rewrite exporter_is_loop in Hrun.
  apply export_loop_inv in Hrun as (cs & st' & vs & Hall & Hvs & Hopen & ->).
  eexists. cbn [files written after].
  split; [apply lookup_insert_eq | apply dumps_printable].
Qed.

(** X5. In every run of the exporter, failed or not, the queries spawned
    are the first [n] read queries of the table, in the order of the table
    and each once, for some [n] up to five. *)
Theorem exporter_calls_in_order (w : World) :
  ∃ n : nat,
    (n ≤ 5)%nat
    ∧ (calls (exporter spawn w).2).*1
      = (calls w).*1 ++ (get_argv <$> take n settings_table).
Proof.
  rewrite exporter_is_loop.
  exact (export_loop_prefix settings_table [] w).
Qed.

(** X6. The exporter reads neither the files nor the log: from two
    worlds with the same store, in which opening [settings.json] for
    writing fares the same, it returns the same result, leaves the same
    store, makes the same calls and does the same to the files (nothing,
    or the same text into [settings.json]). *)
Theorem exporter_reads_store_only (w1 w2 : World) :
  store w1 = store w2 →
  unwritable w1 !! "settings.json" = unwritable w2 !! "settings.json" →
  (exporter spawn w1).1 = (exporter spawn w2).1
  ∧ store (exporter spawn w1).2 = store (exporter spawn w2).2
  ∧ (∃ new, calls (exporter spawn w1).2 = calls w1 ++ new
            ∧ calls (exporter spawn w2).2 = calls w2 ++ new)
  ∧ ∃ upd,
      files (exporter spawn w1).2 = write_file upd (files w1)
      ∧ files (exporter spawn w2).2 = write_file upd (files w2).
Proof. rewrite exporter_is_loop. apply export_loop_frame. Qed.

(** X7. Exporting twice is exporting once: when the five read queries
    leave the store alone, a second run returns what the first returned
    and leaves the files and the store as the first left them. *)
Theorem exporter_twice (w : World) :
  Forall (λ q, (spawn (get_argv q) (store w)).2 = store w) settings_table →
  (exporter spawn (exporter spawn w).2).1 = (exporter spawn w).1
  ∧ files (exporter spawn (exporter spawn w).2).2 = files (exporter spawn w).2
  ∧ store (exporter spawn (exporter spawn w).2).2 = store w.
Proof.
  intros Hpure.
  assert (Hst : store (exporter spawn w).2 = store w)
    by (rewrite exporter_is_loop; apply export_loop_store, Hpure).
  assert (Hopen : unwritable (exporter spawn w).2 !! "settings.json"
                  = unwritable w !! "settings.json")
    by (rewrite exporter_is_loop, export_loop_unwritable; reflexivity).
  rewrite exporter_is_loop in *.
  destruct (export_loop_frame settings_table [] _ _ Hst Hopen)
    as (Hr & Hs & _ & (upd & Hf1 & Hf2)).
  split; [exact Hr|]. split; [|rewrite Hs; exact Hst].
  rewrite Hf1, Hf2. destruct upd as [text |]; [|reflexivity].
  cbn [write_file]. apply insert_insert_eq.
Qed.

End ExporterMore.

(** ** More about the importer *)

Section ImporterMore.

Context {Store : Type}.
Variable spawn : list str → Store → (exn + CompletedProcess) * Store.

Local Abbreviation World := (World (Store := Store)).

(** The writes the importer has spawned so far are a prefix of the
    table's, each with the document's string for its key. *)
Lemma import_loop_prefix (settings : Json.value) (qs : list Setting) :
  ∀ w : World,
    ∃ vs,
      (length vs ≤ length qs)%nat
      ∧ (calls (import_loop spawn settings qs w).2).*1
        = (calls w).*1 ++ zip_with set_argv qs vs
      ∧ holds settings (take (length vs) qs) vs.
Proof.
  induction qs as [| q qs IH]; intros w.
  - exists []. cbn. rewrite app_nil_r. repeat split; [lia | constructor].
  - rewrite import_loop_cons.
    destruct (lookup_key settings (record_key q)) as [e | v] eqn:Hq.
    { exists []. cbn. rewrite app_nil_r. repeat split; [lia | constructor]. }
    destruct v as [| | | v | |];
      try (exists []; cbn; rewrite app_nil_r; repeat split; [lia | constructor]).
    destruct (spawn (set_argv q v) (store w)) as [[e | c] st].
    { exists [v]. cbn [length snd calls after zip_with take]. rewrite fmap_app. cbn.
      repeat split; [lia | destruct qs; reflexivity |].
      constructor; [exact Hq | constructor]. }
    edestruct IH as (vs & Hn & -> & Hvs). exists (v :: vs).
    cbn [calls after length take zip_with]. rewrite fmap_app, <- app_assoc. cbn.
    repeat split; [lia|]. constructor; [exact Hq | exact Hvs].
Qed.

(** The importer looks at the five members it asks for and at nothing
    else of the document. *)
Lemma import_loop_agree (s1 s2 : Json.value) (qs : list Setting) :
  Forall (λ q, lookup_key s1 (record_key q) = lookup_key s2 (record_key q)) qs →
  ∀ w1 w2 : World,
    store w1 = store w2 → calls w1 = calls w2 →
    (import_loop spawn s1 qs w1).1 = (import_loop spawn s2 qs w2).1
    ∧ store (import_loop spawn s1 qs w1).2 = store (import_loop spawn s2 qs w2).2
    ∧ calls (import_loop spawn s1 qs w1).2 = calls (import_loop spawn s2 qs w2).2.
Proof.
  induction 1 as [| q qs Hq _ IH]; intros w1 w2 Hst Hcalls.
  - cbn. repeat split; assumption.
  - rewrite !import_loop_cons, <- Hq, <- Hst.
    destruct (lookup_key s1 (record_key q)) as [e | v];
      [repeat split; assumption|].
    destruct v as [| | | v | |]; try (repeat split; assumption).
    destruct (spawn (set_argv q v) (store w1)) as [[e | c] st].
    { cbn. rewrite Hcalls. repeat split; reflexivity. }
    apply IH; cbn; [reflexivity | rewrite Hcalls; reflexivity].
Qed.


(** X8. The importer never touches the files: after any run, failed or
    not, they are what they were. *)
Theorem importer_keeps_files (w : World) :
  files (importer spawn w).2 = files w.
Proof.
  rewrite importer_unfold.
  destruct (files w !! "settings.json") as [text |]; [|reflexivity].
  destruct (Json.loads (interpreter w) text);
    [reflexivity | apply import_loop_files].
Qed.

(** X9. In every run of the importer, failed or not, the calls made are
    the writes of the first [n] keys of the table, in the order of the
    table and each once, for some [n] up to five, and each carries the
    string the document holds for its key; without a document that parses
    there is no call. *)
Theorem importer_calls_in_order (w : World) :
  ∃ vs,
    (length vs ≤ 5)%nat
    ∧ (calls (importer spawn w).2).*1
      = (calls w).*1 ++ zip_with set_argv settings_table vs
    ∧ match Json.loads (interpreter w) <$> files w !! "settings.json" with
      | Some (inr settings) =>
        holds settings (take (length vs) settings_table) vs
      | _ => vs = []
      end.
Proof.
  rewrite importer_unfold.
  destruct (files w !! "settings.json") as [text |]; cbn [fmap option_fmap option_map].
  2:{ exists []. cbn. rewrite app_nil_r. repeat split. lia. }
  destruct (Json.loads (interpreter w) text) as [e | settings].
  { exists []. cbn. rewrite app_nil_r. repeat split. lia. }
  exact (import_loop_prefix settings settings_table w).
Qed.


(** X11. Only the five members count: two documents that agree on what
    [settings[key]] gives for the five keys (whatever else they hold, in
    whatever order, with whatever duplicates) make the importer return the
    same, call the same and leave the same store. *)
Theorem importer_ignores_other_members
        (w1 w2 : World) text1 text2 s1 s2 :
  files w1 !! "settings.json" = Some text1 →
  Json.loads (interpreter w1) text1 = inr s1 →
  files w2 !! "settings.json" = Some text2 →
  Json.loads (interpreter w2) text2 = inr s2 →
  store w1 = store w2 → calls w1 = calls w2 →
  Forall (λ q, lookup_key s1 (record_key q) = lookup_key s2 (record_key q))
         settings_table →
  (importer spawn w1).1 = (importer spawn w2).1
  ∧ store (importer spawn w1).2 = store (importer spawn w2).2
  ∧ calls (importer spawn w1).2 = calls (importer spawn w2).2.
Proof.
  intros Hf1 Hl1 Hf2 Hl2 Hst Hcalls Hagree.
  rewrite !importer_unfold, Hf1, Hl1, Hf2, Hl2.
  apply import_loop_agree; assumption.
Qed.


End ImporterMore.

(** ** From one machine to another *)

Section Transfer.

Context {Store Store' : Type}.
Variable spawn : list str → Store → (exn + CompletedProcess) * Store.
Variable spawn' : list str → Store' → (exn + CompletedProcess) * Store'.

(** X13. A file the exporter wrote is a file the importer accepts, on
    whatever machine: it parses, all five lookups succeed and give
    strings, so that where the five writes can be spawned the importer
    returns, having written the five exported values. *)
Theorem exported_file_is_importable
        (w w1 : World (Store := Store)) (w2 : World (Store := Store')) :
  exporter spawn w = (inr (), w1) →
  files w2 !! "settings.json" = files w1 !! "settings.json" →
  ∃ vs,
    length vs = 5%nat
    ∧ files w1 !! "settings.json" = Some (Json.dumps (zip record_keys vs))
    ∧ ∀ cs st',
        spawn_all spawn' (zip_with set_argv settings_table vs) (store w2)
        = Some (cs, st') →
        importer spawn' w2
        = (inr (),
           after w2 st' (completed (zip_with set_argv settings_table vs) cs)).
Proof.
  intros Hrun Hfile. rewrite exporter_is_loop in Hrun.
  apply export_loop_inv in Hrun as (cs0 & st0 & vs & Hall & Hvs & Hopen & ->).
  pose proof (captured_length _ _ _ _ _ Hall Hvs) as Hlen.
  cbn [files written after] in *. rewrite fill_table in * by exact Hlen.
  rewrite lookup_insert_eq in Hfile.
  exists vs. split; [exact Hlen|]. split; [apply lookup_insert_eq|].
  intros cs st' Hwrites.
  eapply importer_run; [exact Hfile | | | exact Hwrites].
  - apply record_reads_back; [exact Hlen | eapply captured_scalar, Hvs].
  - apply record_holds, Hlen.
Qed.

End Transfer.

(** ** More runs against the stand-in *)

Lemma exporter_values_trimmed_witness :
  ∃ vs,
    length vs = 5%nat
    ∧ files (exporter fake_gsettings stale_world).2
      = <["settings.json" := Json.dumps (zip record_keys vs)]> (files stale_world)
    ∧ Forall trimmed vs.
Proof.
  apply (exporter_values_trimmed fake_gsettings stale_world).
  vm_compute. reflexivity.
Defined.

Lemma exporter_stops_at_failed_query_witness :
  exporter garbled_gsettings world0
  = (inl UnicodeDecodeError,
     after world0 desktop
       (completed (get_argv <$> take 3 settings_table)
                  [printed (py "'Kali-Dark'");
                   printed (py "'Flat-Remix-Blue-Dark'");
                   printed (py "'Adwaita'")]
        ++ [([py "gsettings"; py "get"; py "org.gnome.desktop.background";
              py "picture-uri"],
             inr {| returncode := 0; stdout := [xff; x0a] |})])).
Proof.
  apply (exporter_stops_at_failed_query garbled_gsettings world0 3
           {| record_key := "wallpaper";
              schema := "org.gnome.desktop.background"; key := "picture-uri" |}
           _ desktop
           [py "'Kali-Dark'"; py "'Flat-Remix-Blue-Dark'"; py "'Adwaita'"]).
  - reflexivity.
  - vm_compute. reflexivity.
  - repeat (constructor; [vm_compute; reflexivity|]). constructor.
  - vm_compute. reflexivity.
  - vm_compute. reflexivity.
Defined.

Lemma exporter_blank_output_witness :
  ∃ cs vs,
    calls (exporter fake_gsettings blank_world).2
    = calls blank_world ++ completed (get_argv <$> settings_table) cs
    ∧ files (exporter fake_gsettings blank_world).2
      = <["settings.json" := Json.dumps (zip record_keys vs)]> (files blank_world)
    ∧ (zip record_keys vs).*1 = record_keys
    ∧ ∀ (i : nat) c,
        cs !! i = Some c →
        Forall (λ b, Bytes.isspace b = true) (stdout c) →
        vs !! i = Some [].
Proof.
  apply (exporter_blank_output fake_gsettings blank_world).
  vm_compute. reflexivity.
Defined.

Lemma exporter_file_is_ascii_witness :
  ∃ text,
    files (exporter fake_gsettings stale_world).2 !! "settings.json" = Some text
    ∧ Forall printable text.
Proof.
  apply (exporter_file_is_ascii fake_gsettings stale_world).
  vm_compute. reflexivity.
Defined.

Lemma exporter_reads_store_only_witness :
  (exporter fake_gsettings world0).1 = (exporter fake_gsettings stale_world).1
  ∧ store (exporter fake_gsettings world0).2
    = store (exporter fake_gsettings stale_world).2
  ∧ (∃ new, calls (exporter fake_gsettings world0).2 = calls world0 ++ new
            ∧ calls (exporter fake_gsettings stale_world).2
              = calls stale_world ++ new)
  ∧ ∃ upd,
      files (exporter fake_gsettings world0).2 = write_file upd (files world0)
      ∧ files (exporter fake_gsettings stale_world).2
        = write_file upd (files stale_world).
Proof.
  apply (exporter_reads_store_only fake_gsettings world0 stale_world).
  - reflexivity.
  - vm_compute. reflexivity.
Defined.

(** With the same store, the outcome still turns on whether the file can
    be opened. *)
Example exporter_needs_the_directory :
  store world0 = store readonly_world
  ∧ (exporter fake_gsettings world0).1 = inr ()
  ∧ (exporter fake_gsettings readonly_world).1 = inl (OSError 13)
  ∧ files (exporter fake_gsettings readonly_world).2 = files readonly_world.
Proof. repeat split; vm_compute; reflexivity. Qed.

Lemma exporter_twice_witness :
  (exporter fake_gsettings (exporter fake_gsettings world0).2).1
  = (exporter fake_gsettings world0).1
  ∧ files (exporter fake_gsettings (exporter fake_gsettings world0).2).2
    = files (exporter fake_gsettings world0).2
  ∧ store (exporter fake_gsettings (exporter fake_gsettings world0).2).2
    = store world0.
Proof.
  apply (exporter_twice fake_gsettings world0).
  unfold settings_table.
  repeat (constructor; [vm_compute; reflexivity|]). constructor.
Defined.


Lemma importer_ignores_other_members_witness :
  (importer fake_gsettings scenario_world).1
  = (importer fake_gsettings crowded_world).1
  ∧ store (importer fake_gsettings scenario_world).2
    = store (importer fake_gsettings crowded_world).2
  ∧ calls (importer fake_gsettings scenario_world).2
    = calls (importer fake_gsettings crowded_world).2.
Proof.
  apply (importer_ignores_other_members fake_gsettings
           scenario_world crowded_world
           (Json.dumps saved_record)
           (Json.dumps
              [ (py "font", py "Mono");
                (py "wallpaper", py "file:///old.png");
                (py "color_scheme", py "#FFFFFF");
                (py "cursor_theme", py "Adwaita");
                (py "wallpaper", py "file:///wall.png");
                (py "icon_theme", py "Papirus");
                (py "gtk_theme", py "Adwaita") ])
           (Json.JObject (jstring_pair <$> saved_record))
           (Json.JObject
              (jstring_pair <$>
                 [ (py "font", py "Mono");
                   (py "wallpaper", py "file:///old.png");
                   (py "color_scheme", py "#FFFFFF");
                   (py "cursor_theme", py "Adwaita");
                   (py "wallpaper", py "file:///wall.png");
                   (py "icon_theme", py "Papirus");
                   (py "gtk_theme", py "Adwaita") ]))).
  - vm_compute. reflexivity.
  - vm_compute. reflexivity.
  - vm_compute. reflexivity.
  - vm_compute. reflexivity.
  - reflexivity.
  - reflexivity.
  - unfold settings_table.
    repeat (constructor; [vm_compute; reflexivity|]). constructor.
Defined.


Lemma exported_file_is_importable_witness :
  ∃ vs,
    length vs = 5%nat
    ∧ files (exporter fake_gsettings world0).2 !! "settings.json"
      = Some (Json.dumps (zip record_keys vs))
    ∧ ∀ cs st',
        spawn_all fake_gsettings (zip_with set_argv settings_table vs)
                  bare_desktop
        = Some (cs, st') →
        importer fake_gsettings
          {| unwritable := ∅; interpreter := usual_limits;
             files := files (exporter fake_gsettings world0).2;
             store := bare_desktop; calls := [] |}
        = (inr (),
           after {| unwritable := ∅; interpreter := usual_limits;
                    files := files (exporter fake_gsettings world0).2;
                    store := bare_desktop; calls := [] |}
                 st' (completed (zip_with set_argv settings_table vs) cs)).
Proof.
  apply (exported_file_is_importable fake_gsettings fake_gsettings world0
           (exporter fake_gsettings world0).2
           {| unwritable := ∅; interpreter := usual_limits;
              files := files (exporter fake_gsettings world0).2;
              store := bare_desktop; calls := [] |}).
  - vm_compute. reflexivity.
  - reflexivity.
Defined.
